(** * XcelWorks: the spreadsheet demo and the HTML exporter

    A shallow embedding of the two scripts of the repository,

      - [2.ExcelDataHandling/main.py]: create a sample workbook, load it,
        transform it ([manipulate]) and export the results;
      - [1.ExcelToHTML/main.py]: render one or all sheets of a workbook as an
        HTML page,

    together with the properties their specification states and some
    more that the code shows. The last step of the first script, writing the
    four tables into a workbook ([export_results]), is not modelled.

    Both scripts are straight-line calls into pandas, so the embedding has two
    layers: a model of the pandas operations the scripts call (data frames,
    column assignment, grouping, pivoting, [to_html]) and, on top of it, the
    functions of the scripts themselves, line by line.

    Numbers are exact rationals ([Qc]): the model idealises binary floating
    point, so a statement about a sum or a rounded product is a statement
    about the exact value. A row of a frame is a map from column labels to
    cells, so that a frame has no two columns of one label; row labels (the
    index) play no role in the scripts and are left out.

    The definitions come first, one module per script; the properties
    follow, one module per script again. *)

From Stdlib Require Import ZArith QArith Qround Qcanon String Ascii List Sorted Permutation Lia DecimalString OrderedTypeEx.
From stdpp Require Import base option list gmap strings numbers.

Module ExcelDataHandling.

(** ** Cells, rows and data frames *)

(** A [datetime(y, m, d)]; the time of day plays no role in the script. *)
Record datetime := mk_datetime { year : nat; month : nat; day : nat }.

(** A cell of a data frame: pandas' missing marker ([NaN], [None], [NaT]),
    a text, a number or a timestamp. *)
Inductive cell :=
| NaN
| Text (s : string)
| Num (x : Qc)
| Date (d : datetime).

#[global] Instance datetime_eq_dec : EqDecision datetime.
Proof. solve_decision. Defined.

#[global] Instance cell_eq_dec : EqDecision cell.
Proof. solve_decision. Defined.

(** A row maps column labels to cells; a label a row does not hold reads as
    missing. *)
Definition cell_at (r : gmap string cell) (c : string) : cell :=
  default NaN (r !! c).

Record DataFrame := mk_frame {
  columns : list string;
  rows : list (gmap string cell)
}.

(** A [Series] is a column taken out of a frame: one cell per row. *)
Definition Series := list cell.

(** The result of [pivot_table]: the index values label the rows, the column
    values label the columns, and every row carries one cell per column. *)
Record PivotTable := mk_pivot {
  pcolumns : list cell;
  prows : list (cell * list cell)
}.

(** What pandas does with text and numbers it is asked to read as a number or
    as a timestamp is pandas' business: the four conversions are parameters
    of the model. [None] stands for a value that cannot be converted. *)
Class Converters := {
  str_to_number : string -> option Qc;
  datetime_to_number : datetime -> option Qc;
  str_to_datetime : string -> option datetime;
  number_to_datetime : Qc -> option datetime
}.

(** ** The pandas operations the script calls *)

Definition isna (c : cell) : bool :=
  match c with NaN => true | _ => false end.

Definition notna (c : cell) : bool := negb (isna c).

(** ["name" in df.columns] *)
Definition has_column (c : string) (df : DataFrame) : bool :=
  existsb (String.eqb c) (columns df).

(** [df.dropna(how="all")]: a row goes when every one of its cells is missing. *)
Definition all_missing (cols : list string) (r : gmap string cell) : bool :=
  forallb (fun c => isna (cell_at r c)) cols.

Definition dropna_all (df : DataFrame) : DataFrame :=
  mk_frame (columns df)
           (List.filter (fun r => negb (all_missing (columns df) r)) (rows df)).

(** [df[c]] as a value. *)
Definition column (df : DataFrame) (c : string) : Series :=
  map (fun r => cell_at r c) (rows df).

(** The columns of a frame after [df[c] = ...]: an existing label keeps its
    place, a new one goes last. *)
Definition columns_with (c : string) (df : DataFrame) : list string :=
  if has_column c df then columns df else columns df ++ [c].

(** [df[c] = s] for a series [s] with one cell per row. *)
Definition assign (df : DataFrame) (c : string) (s : Series) : DataFrame :=
  mk_frame (columns_with c df)
           (zip_with (fun r v => <[c := v]> r) (rows df) s).

(** [df[c] = v] for a scalar [v], broadcast to every row. *)
Definition assign_scalar (df : DataFrame) (c : string) (v : cell) : DataFrame :=
  mk_frame (columns_with c df) (map (fun r => <[c := v]> r) (rows df)).

Section Conversions.
Context `{Converters}.

(** [pd.to_numeric(s, errors="coerce")] *)
Definition to_numeric_cell (c : cell) : cell :=
  match c with
  | NaN => NaN
  | Num x => Num x
  | Text s => from_option Num NaN (str_to_number s)
  | Date d => from_option Num NaN (datetime_to_number d)
  end.

Definition to_numeric (s : Series) : Series := map to_numeric_cell s.

(** [pd.to_datetime(s, errors="coerce")] *)
Definition to_datetime_cell (c : cell) : cell :=
  match c with
  | NaN => NaN
  | Date d => Date d
  | Text s => from_option Date NaN (str_to_datetime s)
  | Num x => from_option Date NaN (number_to_datetime x)
  end.

Definition to_datetime (s : Series) : Series := map to_datetime_cell s.

End Conversions.

(** [s.fillna(v)] *)
Definition fillna (v : cell) (s : Series) : Series :=
  map (fun c => if isna c then v else c) s.

(** Decimal digits, for [2025-01]. *)
Definition digit (n : nat) : ascii := ascii_of_nat (48 + n mod 10).

Definition two_digits (n : nat) : string :=
  String (digit (n / 10)) (String (digit n) EmptyString).

Definition four_digits (n : nat) : string :=
  String (digit (n / 1000)) (String (digit (n / 100)) (two_digits n)).

(** [s.dt.to_period("M").astype(str)]: ["2025-01"] for a timestamp and
    ["NaT"] where the timestamp is missing. *)
Definition year_month (d : datetime) : string :=
  four_digits (year d) +:+ "-" +:+ two_digits (month d).

Definition period_cell (c : cell) : cell :=
  match c with Date d => Text (year_month d) | _ => Text "NaT" end.

Definition to_period_M_str (s : Series) : Series := map period_cell s.

(** [s * k]; a missing cell stays missing. The script multiplies the Amount
    column only, after it has been made numeric. *)
Definition mul (k : Qc) (s : Series) : Series :=
  map (fun c => match c with Num x => Num (x * k) | _ => NaN end) s.

(** Rounding to the nearest integer, a tie going to the even neighbour, as
    numpy rounds. *)
Definition rint (q : Q) : Z :=
  let f := Qfloor q in
  match Qcompare (q - inject_Z f) (1 # 2) with
  | Lt => f
  | Gt => (f + 1)%Z
  | Eq => if Z.even f then f else (f + 1)%Z
  end.

(** [round(x, n)] on a number. *)
Definition round_number (n : nat) (x : Qc) : Qc :=
  let scale := inject_Z (10 ^ Z.of_nat n) in
  Q2Qc (inject_Z (rint (x * scale)) / scale).

(** [s.round(n)] *)
Definition round (n : nat) (s : Series) : Series :=
  map (fun c => match c with Num x => Num (round_number n x) | _ => c end) s.

(** [s > 0]: a comparison with a missing cell is false. *)
Definition positive (c : cell) : bool :=
  match c with Num x => bool_decide (0 < x)%Qc | _ => false end.

Definition gt0 (s : Series) : list bool := map positive s.

(** [df[mask]]: the rows whose flag is set. *)
Definition select (df : DataFrame) (mask : list bool) : DataFrame :=
  mk_frame (columns df)
           (map fst (List.filter snd (zip (rows df) mask))).

(** *** The order of keys

    Values of one kind compare as Python compares them: numbers by value,
    texts by code point, timestamps by date. A key column of a spreadsheet
    holds values of one kind; for a column that mixes kinds, which pandas
    sorts numbers first or refuses to sort, the model fixes numbers before
    texts before timestamps. A missing key comes last
    ([na_position="last"]). *)

Definition kind (c : cell) : nat :=
  match c with Num _ => 0 | Text _ => 1 | Date _ => 2 | NaN => 3 end.

Definition datetime_compare (d e : datetime) : comparison :=
  match Nat.compare (year d) (year e) with
  | Eq => match Nat.compare (month d) (month e) with
          | Eq => Nat.compare (day d) (day e)
          | o => o
          end
  | o => o
  end.

Definition cell_compare (a b : cell) : comparison :=
  match a, b with
  | Num x, Num y => (x ?= y)%Qc
  | Text s, Text t => String.compare s t
  | Date d, Date e => datetime_compare d e
  | _, _ => Nat.compare (kind a) (kind b)
  end.

(** Keys of several columns compare column by column. *)
Fixpoint key_compare (k1 k2 : list cell) : comparison :=
  match k1, k2 with
  | [], [] => Eq
  | [], _ :: _ => Lt
  | _ :: _, [] => Gt
  | a :: k1', b :: k2' =>
      match cell_compare a b with
      | Eq => key_compare k1' k2'
      | o => o
      end
  end.

Definition not_gt (o : comparison) : bool :=
  match o with Gt => false | _ => true end.

Definition cell_leb (a b : cell) : bool := not_gt (cell_compare a b).
Definition key_leb (k1 k2 : list cell) : bool := not_gt (key_compare k1 k2).

(** A stable sort: equal elements keep their order. *)
Fixpoint insert_sorted {A} (leb : A -> A -> bool) (x : A) (l : list A) : list A :=
  match l with
  | [] => [x]
  | y :: l' => if leb x y then x :: l else y :: insert_sorted leb x l'
  end.

Definition sort_by {A} (leb : A -> A -> bool) (l : list A) : list A :=
  fold_right (insert_sorted leb) [] l.

(** *** Grouping *)

(** The key of a row under [groupby(keys)]; a row with a missing key cell
    belongs to no group ([dropna=True], the default). *)
Definition row_key (keys : list string) (r : gmap string cell) : list cell :=
  map (cell_at r) keys.

Definition group_key (keys : list string) (r : gmap string cell)
  : option (list cell) :=
  if forallb notna (row_key keys r) then Some (row_key keys r) else None.

(** Rows join the group of their key in the order they come. *)
Fixpoint add_to_group (k : list cell) (r : gmap string cell)
    (gs : list (list cell * list (gmap string cell)))
  : list (list cell * list (gmap string cell)) :=
  match gs with
  | [] => [(k, [r])]
  | g :: gs' =>
      if decide (fst g = k) then (fst g, snd g ++ [r]) :: gs'
      else g :: add_to_group k r gs'
  end.

Definition group_step (keys : list string)
    (gs : list (list cell * list (gmap string cell))) (r : gmap string cell) :=
  match group_key keys r with
  | Some k => add_to_group k r gs
  | None => gs
  end.

Definition group_rows (keys : list string) (rs : list (gmap string cell))
  : list (list cell * list (gmap string cell)) :=
  fold_left (group_step keys) rs [].

(** [df.groupby(keys)]: the groups, in the order of their keys ([sort=True]). *)
Definition groupby (keys : list string) (df : DataFrame)
  : list (list cell * list (gmap string cell)) :=
  sort_by (fun g1 g2 => key_leb (fst g1) (fst g2)) (group_rows keys (rows df)).

(** The number in a cell, for a sum: a missing cell adds nothing
    ([skipna=True]). *)
Definition number (c : cell) : Qc :=
  match c with Num x => x | _ => 0%Qc end.

(** [s.sum()] *)
Definition sum (s : Series) : Qc :=
  fold_right (fun c acc => (number c + acc)%Qc) 0%Qc s.

(** The sum of column [val] over a list of rows. *)
Definition sum_of (val : string) (rs : list (gmap string cell)) : Qc :=
  sum (map (fun r => cell_at r val) rs).

(** [df.groupby(keys, as_index=False)[val].sum()]: one row per group, holding
    the key cells and the sum. *)
Definition group_row (keys : list string) (val : string)
    (g : list cell * list (gmap string cell)) : gmap string cell :=
  <[val := Num (sum_of val (snd g))]> (list_to_map (zip keys (fst g))).

Definition groupby_sum_frame (keys : list string) (val : string)
    (df : DataFrame) : DataFrame :=
  mk_frame (keys ++ [val]) (map (group_row keys val) (groupby keys df)).

(** [df.sort_values(keys)] *)
Definition sort_values_frame (keys : list string) (df : DataFrame)
  : DataFrame :=
  mk_frame (columns df)
           (sort_by (fun r1 r2 => key_leb (row_key keys r1) (row_key keys r2))
                    (rows df)).

(** *** Pivoting *)

(** The aggregate of the group with key [k], if there is such a group. *)
Definition lookup_group (k : list cell) (agged : list (list cell * cell))
  : option cell :=
  snd <$> List.find (fun g => bool_decide (fst g = k)) agged.

(** The groups of a pivot, with their sums. *)
Definition aggregated (index cols values : string) (df : DataFrame)
  : list (list cell * cell) :=
  map (fun g => (fst g, Num (sum_of values (snd g))))
      (groupby [index; cols] df).

(** The cell for the index value [i] and the column value [c]. *)
Definition table_cell (index cols values : string) (fill : cell)
    (df : DataFrame) (i c : cell) : cell :=
  default fill (lookup_group [i; c] (aggregated index cols values df)).

(** [df.pivot_table(index=i, columns=c, values=v, aggfunc="sum",
    fill_value=fill)] groups by [(i, c)] and sums [v]; the distinct index
    values become the rows and the distinct column values, in order, the
    columns; a cell holds the sum of its group, or [fill] where no row has
    that combination. (A sum is never missing here, so that no row or column
    of the table is dropped for being empty.) *)
Definition pivot_table_frame (index cols values : string) (fill : cell)
    (df : DataFrame) : PivotTable :=
  let agged := aggregated index cols values df in
  let idx := remove_dups (map (fun g => nth 0 (fst g) NaN) agged) in
  let labels := sort_by cell_leb
                  (remove_dups (map (fun g => nth 1 (fst g) NaN) agged)) in
  mk_pivot labels
    (map (fun i => (i, map (table_cell index cols values fill df i) labels))
         idx).

(** [pivot.sort_index()]: the rows in the order of their index value. *)
Definition sort_index_pivot (p : PivotTable) : PivotTable :=
  mk_pivot (pcolumns p)
           (sort_by (fun r1 r2 => cell_leb (fst r1) (fst r2)) (prows p)).


(** ** Objects and references

    A pandas frame is a mutable object: [df[c] = ...] changes the frame
    every name bound to it sees, while [dropna], [copy], [df[mask]],
    [groupby(...).sum()], [sort_values] and [pivot_table] build new objects.
    The store holds the objects; a reference is a position in it, and a new
    object goes to the end. *)

Inductive object :=
| Frame (df : DataFrame)
| Pivot (p : PivotTable).

Abbreviation heap := (list object).
Definition ref := nat.

(** A computation reads and changes the store, and may raise. *)
Definition M (A : Type) : Type := heap -> option (A * heap).

#[global] Instance M_ret : MRet M := fun A a h => Some (a, h).
#[global] Instance M_bind : MBind M := fun A B f m h =>
  match m h with
  | Some (a, h') => f a h'
  | None => None
  end.

Definition raise {A} : M A := fun _ => None.

Definition alloc (o : object) : M ref := fun h => Some (length h, h ++ [o]).

Definition frame_of (r : ref) : M DataFrame := fun h =>
  match h !! r with
  | Some (Frame df) => Some (df, h)
  | _ => None
  end.

Definition store (r : ref) (df : DataFrame) : M unit := fun h =>
  if bool_decide (r < length h) then Some (tt, <[r := Frame df]> h) else None.

(** The pandas calls of the script, on references. *)

(** [df.dropna(how="all")] *)
Definition dropna (r : ref) : M ref :=
  df ← frame_of r; alloc (Frame (dropna_all df)).

(** [df.copy()] *)
Definition copy (r : ref) : M ref :=
  df ← frame_of r; alloc (Frame df).

(** [c in df.columns] *)
Definition contains (r : ref) (c : string) : M bool :=
  df ← frame_of r; mret (has_column c df).

(** [df[c]]: a [KeyError] for a label the frame does not have. *)
Definition getitem (r : ref) (c : string) : M Series :=
  df ← frame_of r;
  if has_column c df then mret (column df c) else raise.

(** [df[c] = s], in place: a [ValueError] unless [s] has one cell per row. *)
Definition setitem (r : ref) (c : string) (s : Series) : M unit :=
  df ← frame_of r;
  if bool_decide (length s = length (rows df)) then store r (assign df c s)
  else raise.

(** [df[c] = v], in place. *)
Definition setitem_scalar (r : ref) (c : string) (v : cell) : M unit :=
  df ← frame_of r; store r (assign_scalar df c v).

(** [df[mask]] *)
Definition getitem_mask (r : ref) (mask : list bool) : M ref :=
  df ← frame_of r;
  if bool_decide (length mask = length (rows df))
  then alloc (Frame (select df mask))
  else raise.

(** [df.groupby(keys, as_index=False)[val].sum()] *)
Definition groupby_sum (r : ref) (keys : list string) (val : string) : M ref :=
  df ← frame_of r; alloc (Frame (groupby_sum_frame keys val df)).

(** [df.sort_values(keys)] *)
Definition sort_values (r : ref) (keys : list string) : M ref :=
  df ← frame_of r; alloc (Frame (sort_values_frame keys df)).

(** [df.pivot_table(index=.., columns=.., values=.., aggfunc="sum",
    fill_value=..)] *)
Definition pivot_table (r : ref) (index cols values : string) (fill : cell)
  : M ref :=
  df ← frame_of r; alloc (Pivot (pivot_table_frame index cols values fill df)).

Definition pivot_of (r : ref) : M PivotTable := fun h =>
  match h !! r with
  | Some (Pivot p) => Some (p, h)
  | _ => None
  end.

(** [pivot.sort_index()] *)
Definition sort_index (r : ref) : M ref :=
  p ← pivot_of r; alloc (Pivot (sort_index_pivot p)).

(** ** The script *)

Section Script.
Context `{Converters}.

(** [manipulate(df)], lines 39 to 90. It returns
    [(df_clean, df_pos, totals, pivot_or_None)]. *)
Definition manipulate (df : ref) : M (ref * ref * ref * option ref) :=
  (* df = df.dropna(how="all").copy() *)
  dropped ← dropna df;
  df ← copy dropped;
  (* if "Amount" not in df.columns: df["Amount"] = 1.0 *)
  has_amount ← contains df "Amount";
  (if negb has_amount then setitem_scalar df "Amount" (Num 1) else mret tt);;
  (* df["Amount"] = pd.to_numeric(df["Amount"], errors="coerce").fillna(0.0) *)
  amount ← getitem df "Amount";
  setitem df "Amount" (fillna (Num 0) (to_numeric amount));;
  (* if "Date" in df.columns: ... *)
  has_date ← contains df "Date";
  (if has_date : bool then
     date ← getitem df "Date";
     setitem df "Date" (to_datetime date);;
     date ← getitem df "Date";
     setitem df "YearMonth" (to_period_M_str date)
   else mret tt);;
  (* df["VAT_20"] = (df["Amount"] * 0.20).round(2) *)
  amount ← getitem df "Amount";
  setitem df "VAT_20" (round 2 (mul (Q2Qc (20 # 100)) amount));;
  (* df_pos = df[df["Amount"] > 0].copy() *)
  amount ← getitem df "Amount";
  selected ← getitem_mask df (gt0 amount);
  df_pos ← copy selected;
  (* if "Category" not in df.columns: ... *)
  has_category ← contains df "Category";
  (if negb has_category then
     setitem_scalar df "Category" (Text "All");;
     setitem_scalar df_pos "Category" (Text "All")
   else mret tt);;
  (* if "YearMonth" in df.columns: ... else: ... *)
  has_year_month ← contains df "YearMonth";
  if has_year_month : bool then
    sums ← groupby_sum df_pos ["Category"; "YearMonth"] "Amount";
    totals ← sort_values sums ["Category"; "YearMonth"];
    table ← pivot_table df_pos "Category" "YearMonth" "Amount" (Num 0);
    pivot ← sort_index table;
    mret (df, df_pos, totals, Some pivot)
  else
    sums ← groupby_sum df_pos ["Category"] "Amount";
    totals ← sort_values sums ["Category"];
    mret (df, df_pos, totals, None).

(** Reading a table back from the store. *)
Definition frame_at (h : heap) (r : ref) : option DataFrame :=
  match h !! r with Some (Frame d) => Some d | _ => None end.

Definition pivot_at (h : heap) (r : ref) : option PivotTable :=
  match h !! r with Some (Pivot p) => Some p | _ => None end.

Definition tables (res : ref * ref * ref * option ref) (h : heap)
  : option (DataFrame * DataFrame * DataFrame * option PivotTable) :=
  let '(df, df_pos, totals, pivot) := res in
  clean ← frame_at h df;
  pos ← frame_at h df_pos;
  tot ← frame_at h totals;
  match pivot with
  | Some p => piv ← pivot_at h p; Some (clean, pos, tot, Some piv)
  | None => Some (clean, pos, tot, None)
  end.

(** The four tables [manipulate] returns for a frame [df]: the run starts
    from a store that holds [df] alone, and the tables are read back from
    the store it leaves. *)
Definition run_manipulate (df : DataFrame)
  : option (DataFrame * DataFrame * DataFrame * option PivotTable) :=
  match manipulate 0 [Frame df] with
  | Some (res, h) => tables res h
  | None => None
  end.

End Script.

(** ** Workbooks on disk

    A workbook is a list of named sheets; the files are a map from paths to
    workbooks. Writing a frame and reading it back gives the same cells. *)

Definition workbook := list (string * DataFrame).

(** [df.to_excel(path, index=False)] *)
Definition to_excel (path : string) (df : DataFrame)
    (fs : gmap string workbook) : gmap string workbook :=
  <[path := [("Sheet1", df)]]> fs.

(** [pd.read_excel(path, sheet_name=0)] *)
Definition read_excel_first (path : string) (fs : gmap string workbook)
  : option DataFrame :=
  wb ← fs !! path; snd <$> head wb.

(** [s.strip()], for ASCII white space. *)
Definition is_space (a : ascii) : bool :=
  let n := nat_of_ascii a in
  ((9 <=? n) && (n <=? 13)) || ((28 <=? n) && (n <=? 32)).

Fixpoint lstrip (s : string) : string :=
  match s with
  | String a s' => if is_space a then lstrip s' else s
  | EmptyString => EmptyString
  end.

Fixpoint rstrip (s : string) : string :=
  match s with
  | EmptyString => EmptyString
  | String a s' =>
      match rstrip s' with
      | EmptyString => if is_space a then EmptyString else String a EmptyString
      | t => String a t
      end
  end.

Definition strip (s : string) : string := rstrip (lstrip s).

(** [df.columns = [f(c) for c in df.columns]]: the cells stay, the labels
    change. *)
Definition rename_columns (f : string -> string) (df : DataFrame) : DataFrame :=
  mk_frame (map f (columns df))
           (map (fun r => list_to_map (map (fun c => (f c, cell_at r c)) (columns df)))
                (rows df)).

(** The rows of the sample, lines 16 to 28. *)
Definition sample_row (d : datetime) (category : string) (amount : Z)
    (notes : string) : gmap string cell :=
  list_to_map [("Date", Date d); ("Category", Text category);
               ("Amount", Num (Q2Qc (inject_Z amount))); ("Notes", Text notes)].

Definition sample_data : DataFrame :=
  mk_frame ["Date"; "Category"; "Amount"; "Notes"]
    [ sample_row (mk_datetime 2025 1 5) "Food" 50 "Groceries";
      sample_row (mk_datetime 2025 1 10) "Transport" 20 "Bus fare";
      sample_row (mk_datetime 2025 2 3) "Food" 30 "Lunch";
      sample_row (mk_datetime 2025 2 15) "Rent" 500 "Monthly rent";
      sample_row (mk_datetime 2025 3 7) "Transport" 25 "Taxi";
      sample_row (mk_datetime 2025 3 20) "Food" 45 "Dinner" ].

(** [create_sample_excel(path)] *)
Definition create_sample_excel (path : string) (fs : gmap string workbook)
  : gmap string workbook :=
  to_excel path sample_data fs.

(** [load_excel_first_sheet(path)] *)
Definition load_excel_first_sheet (path : string) (fs : gmap string workbook)
  : option DataFrame :=
  rename_columns strip <$> read_excel_first path fs.

(** Steps 1 to 3 of [main]: create the sample, load it, transform it. *)
Definition main_tables `{Converters} (fs : gmap string workbook)
  : option (DataFrame * DataFrame * DataFrame * option PivotTable) :=
  let sample_file := "Input.xlsx" in
  df ← load_excel_first_sheet sample_file (create_sample_excel sample_file fs);
  run_manipulate df.

(** A conversion that reads unsigned decimal integers and no timestamps, to
    run the script on concrete frames. *)
Definition digit_value (a : ascii) : option nat :=
  let n := nat_of_ascii a in
  if (48 <=? n) && (n <=? 57) then Some (n - 48) else None.

Fixpoint read_digits (acc : nat) (s : string) : option nat :=
  match s with
  | EmptyString => Some acc
  | String a s' => d ← digit_value a; read_digits (10 * acc + d) s'
  end.

Definition read_unsigned (s : string) : option Qc :=
  match s with
  | EmptyString => None
  | _ => (fun n => Q2Qc (inject_Z (Z.of_nat n))) <$> read_digits 0 s
  end.

Definition plain_converters : Converters :=
  {| str_to_number := read_unsigned;
     datetime_to_number := fun _ => None;
     str_to_datetime := fun _ => None;
     number_to_datetime := fun _ => None |}.

(** ** Definitions for the proofs *)

(** The rows of the group with key [k]; none when there is no such group. *)
Fixpoint group_of (k : list cell)
    (gs : list (list cell * list (gmap string cell)))
  : list (gmap string cell) :=
  match gs with
  | [] => []
  | g :: gs' => if decide (fst g = k) then snd g else group_of k gs'
  end.

(** Whether a row belongs to the group with key [k]. *)
Definition in_group (keys : list string) (k : list cell)
    (r : gmap string cell) : bool :=
  bool_decide (group_key keys r = Some k).

(** ** The frames the script holds, line by line

    [manipulate] works on references. The definitions below name the value
    of each frame it builds, as a function of the frame it was given;
    [manipulate_run] then says that a run leaves exactly these values in the
    store. *)

Section Stages.
Context `{Converters}.

(** Line 56. *)
Definition with_amount (df : DataFrame) : DataFrame :=
  if has_column "Amount" df then df else assign_scalar df "Amount" (Num 1).

(** Line 57. *)
Definition coerce_amount (s : Series) : Series := fillna (Num 0) (to_numeric s).

Definition coerced (df : DataFrame) : DataFrame :=
  assign df "Amount" (coerce_amount (column df "Amount")).

(** Lines 60 to 62. *)
Definition parsed_date (df : DataFrame) : DataFrame :=
  assign df "Date" (to_datetime (column df "Date")).

Definition with_year_month (df : DataFrame) : DataFrame :=
  if has_column "Date" df
  then assign (parsed_date df) "YearMonth"
              (to_period_M_str (column (parsed_date df) "Date"))
  else df.

(** Line 65. *)
Definition vat_20 (s : Series) : Series := round 2 (mul (Q2Qc (20 # 100)) s).

Definition with_vat (df : DataFrame) : DataFrame :=
  assign df "VAT_20" (vat_20 (column df "Amount")).

(** The local [df] after line 65. *)
Definition derived (df : DataFrame) : DataFrame :=
  with_vat (with_year_month (coerced (with_amount (dropna_all df)))).

(** Lines 71 to 73. *)
Definition with_category (present : bool) (df : DataFrame) : DataFrame :=
  if present then df else assign_scalar df "Category" (Text "All").

(** The first table returned. *)
Definition cleaned (df : DataFrame) : DataFrame :=
  with_category (has_column "Category" (derived df)) (derived df).

(** Line 68, and the second table returned. *)
Definition positive_rows (df : DataFrame) : DataFrame :=
  select (derived df) (gt0 (column (derived df) "Amount")).

Definition positive_only (df : DataFrame) : DataFrame :=
  with_category (has_column "Category" (derived df)) (positive_rows df).

(** Lines 75 to 88. *)
Definition group_keys (df : DataFrame) : list string :=
  if has_column "YearMonth" (cleaned df) then ["Category"; "YearMonth"]
  else ["Category"].

Definition sums (df : DataFrame) : DataFrame :=
  groupby_sum_frame (group_keys df) "Amount" (positive_only df).

Definition totals (df : DataFrame) : DataFrame :=
  sort_values_frame (group_keys df) (sums df).

Definition pivot_unsorted (df : DataFrame) : PivotTable :=
  pivot_table_frame "Category" "YearMonth" "Amount" (Num 0) (positive_only df).

Definition pivot (df : DataFrame) : option PivotTable :=
  if has_column "YearMonth" (cleaned df)
  then Some (sort_index_pivot (pivot_unsorted df))
  else None.

(** What each line does to a row. *)
Definition amount_row (present : bool) (r : gmap string cell) : gmap string cell :=
  if present then r else <["Amount" := Num 1]> r.

Definition coerce_cell (c : cell) : cell :=
  let n := to_numeric_cell c in if isna n then Num 0 else n.

Definition coerce_row (r : gmap string cell) : gmap string cell :=
  <["Amount" := coerce_cell (cell_at r "Amount")]> r.

Definition year_month_row (present : bool) (r : gmap string cell)
  : gmap string cell :=
  if present then
    <["YearMonth" := period_cell (to_datetime_cell (cell_at r "Date"))]>
      (<["Date" := to_datetime_cell (cell_at r "Date")]> r)
  else r.

Definition vat_cell (c : cell) : cell :=
  match c with
  | Num x => Num (round_number 2 (x * Q2Qc (20 # 100)))
  | _ => NaN
  end.

Definition vat_row (r : gmap string cell) : gmap string cell :=
  <["VAT_20" := vat_cell (cell_at r "Amount")]> r.

Definition category_row (present : bool) (r : gmap string cell)
  : gmap string cell :=
  if present then r else <["Category" := Text "All"]> r.

(** A row of the frame after line 65, from the row of the input it comes
    from. *)
Definition derive_row (df : DataFrame) (r : gmap string cell)
  : gmap string cell :=
  vat_row
    (year_month_row (has_column "Date" df)
       (coerce_row (amount_row (has_column "Amount" df) r))).

Definition positive_row (r : gmap string cell) : bool :=
  positive (cell_at r "Amount").


End Stages.

(** A table as the list of its rows, each the cells under the given
    labels. *)
Definition cells_under (labels : list string) (df : DataFrame)
  : list (list cell) :=
  map (row_key labels) (rows df).

Definition amount (n : Z) : cell := Num (Q2Qc (inject_Z n)).

(** The sum of Amount over the rows of a table with the given category. *)
Definition category_total (category : string) (df : DataFrame) : Qc :=
  sum_of "Amount"
    (List.filter (fun r => bool_decide (cell_at r "Category" = Text category))
                 (rows df)).



(** A frame without an Amount column; its second row is empty. *)
Definition frame_without_amount : DataFrame :=
  mk_frame ["Category"; "Notes"]
    [ list_to_map [("Category", Text "Food"); ("Notes", Text "Lunch")];
      ∅;
      list_to_map [("Category", Text "Rent")] ].



End ExcelDataHandling.

Module ExcelToHTML.

(** ** Frames of text

    The exporter reads every sheet with [dtype=str]: a cell is a text or
    is missing. *)

Record DataFrame := mk_frame {
  columns : list string;
  rows : list (list (option string))
}.

(** [df.fillna(na)] *)
Definition fillna (na : string) (df : DataFrame) : DataFrame :=
  mk_frame (columns df) (map (map (fun c => Some (default na c))) (rows df)).

(** ** Rendering *)

Definition nl : string := String (ascii_of_nat 10) EmptyString.
Definition quote : string := String (ascii_of_nat 34) EmptyString.

(** [''.join(parts)] *)
Definition join (parts : list string) : string :=
  fold_right String.append EmptyString parts.

(** The lines of a text, each closed by a line feed. *)
Definition lines (l : list string) : string :=
  join (map (fun s => s +:+ nl) l).

(** [str(i)] for a count. *)
Definition str (n : nat) : string := NilEmpty.string_of_uint (Nat.to_uint n).

(** pandas shows a value as text before it writes it into a cell: control
    characters are spelled out, the text is trimmed and, beyond the display
    width, cut. The model takes this as given, for cells and for column
    labels; and it takes as given whether a border of 0 is written into the
    tag of the table, which depends on the version of pandas. *)
Class Display := {
  display_cell : string -> string;
  display_label : string -> string;
  border_zero : bool
}.

(** What [to_html] does to the characters HTML reserves ([escape=True]). *)
Definition escape_char (a : ascii) : string :=
  if Ascii.eqb a "&" then "&amp;"
  else if Ascii.eqb a "<" then "&lt;"
  else if Ascii.eqb a ">" then "&gt;"
  else String a EmptyString.

Fixpoint escape (s : string) : string :=
  match s with
  | EmptyString => EmptyString
  | String a s' => escape_char a +:+ escape s'
  end.

Section Rendering.
Context `{Display}.

Definition th (label : string) : string :=
  "      <th>" +:+ escape (display_label label) +:+ "</th>" +:+ nl.

(** A missing cell shows as [NaN]. *)
Definition td (c : option string) : string :=
  "      <td>" +:+ escape (display_cell (default "NaN" c)) +:+ "</td>" +:+ nl.

Definition tr (row : list (option string)) : string :=
  "    <tr>" +:+ nl +:+ join (map td row) +:+ "    </tr>" +:+ nl.

(** The attribute for [border=0]: earlier versions of pandas write
    [border="0"] into the tag, later ones leave the attribute out. *)
Definition border_attr : string :=
  if border_zero then " border=" +:+ quote +:+ "0" +:+ quote else "".

Definition open_tag (table_id : string) : string :=
  "<table" +:+ border_attr
    +:+ " class=" +:+ quote +:+ "dataframe tbl" +:+ quote
    +:+ " id=" +:+ quote +:+ table_id +:+ quote +:+ ">" +:+ nl.

Definition thead (labels : list string) : string :=
  "  <thead>" +:+ nl
  +:+ "    <tr style=" +:+ quote +:+ "text-align: right;" +:+ quote +:+ ">" +:+ nl
  +:+ join (map th labels)
  +:+ "    </tr>" +:+ nl
  +:+ "  </thead>" +:+ nl.

Definition tbody (rs : list (list (option string))) : string :=
  "  <tbody>" +:+ nl +:+ join (map tr rs) +:+ "  </tbody>" +:+ nl.

(** [df.to_html(index=False, border=0, classes="tbl", table_id=table_id)] *)
Definition to_html (df : DataFrame) (table_id : string) : string :=
  open_tag table_id +:+ thead (columns df) +:+ tbody (rows df) +:+ "</table>".

(** The page around the tables, lines 19 to 36 and again 45 to 62. *)
Definition page_head : string :=
  lines [ "<!doctype html>";
          "<html>";
          "<head>";
          "<meta charset=" +:+ quote +:+ "utf-8" +:+ quote +:+ ">";
          "<title>Excel to HTML</title>";
          "<style>";
          "    body { font-family: Arial, Helvetica, sans-serif; margin: 24px; }";
          "    h2 { margin-top: 32px; }";
          "    table.tbl { border-collapse: collapse; width: 100%; }";
          "    table.tbl th, table.tbl td { border: 1px solid #ddd; padding: 8px; }";
          "    table.tbl tr:nth-child(even) { background: #f9f9f9; }";
          "    table.tbl th { background: #f1f1f1; text-align: left; }";
          "</style>";
          "</head>";
          "<body>" ].

Definition page_foot : string := nl +:+ "</body>" +:+ nl +:+ "</html>".

(** [df_to_html(df, table_id)] *)
Definition df_to_html (df : DataFrame) (table_id : string) : string :=
  let html_table := to_html df table_id in
  page_head +:+ html_table +:+ page_foot.

(** The loop of [dfs_to_html]: one part per sheet, numbered from [i]. *)
Fixpoint parts_from (i : nat) (maps : list (string * DataFrame)) : list string :=
  match maps with
  | [] => []
  | (sheet, df) :: maps' =>
      let table := to_html df ("tbl_" +:+ str i) in
      ("<h2>" +:+ sheet +:+ "</h2>" +:+ nl +:+ table) :: parts_from (S i) maps'
  end.

(** [dfs_to_html(maps)]; the dictionary is the list of its items, in
    insertion order. *)
Definition dfs_to_html (maps : list (string * DataFrame)) : string :=
  let parts := parts_from 1 maps in
  page_head +:+ join parts +:+ page_foot.

End Rendering.

(** ** The command *)

(** The files the command sees: the workbooks it can read, by path, each
    the list of its sheets in order; the text files it has written; the
    paths that cannot be opened for writing; and what it has printed. *)
Record World := mk_world {
  workbooks : gmap string (list (string * DataFrame));
  files : gmap string string;
  unwritable : gset string;
  stdout : string
}.

Inductive exn :=
| FileNotFoundError
| ValueError
| AttributeError
| OSError.

Inductive result (A : Type) :=
| Ok (a : A)
| Raise (e : exn).
Arguments Ok {A} a.
Arguments Raise {A} e.

(** [pd.read_excel(path, sheet_name=None, dtype=str)]: all sheets. *)
Definition read_excel_all (path : string) (w : World)
  : result (list (string * DataFrame)) :=
  match workbooks w !! path with
  | Some wb => Ok wb
  | None => Raise FileNotFoundError
  end.

(** [pd.read_excel(path, sheet_name=name, dtype=str)]: the sheet of that
    name, a [ValueError] when the workbook has none. *)
Definition read_excel_sheet (path name : string) (w : World) : result DataFrame :=
  match workbooks w !! path with
  | Some wb =>
      match List.find (fun s => String.eqb (fst s) name) wb with
      | Some s => Ok (snd s)
      | None => Raise ValueError
      end
  | None => Raise FileNotFoundError
  end.

(** [s.lower()], on the letters A to Z. No other character lowers to a
    letter of ["all"]. *)
Definition lower_char (a : ascii) : ascii :=
  let n := nat_of_ascii a in
  if (65 <=? n) && (n <=? 90) then ascii_of_nat (n + 32) else a.

Fixpoint lower (s : string) : string :=
  match s with
  | EmptyString => EmptyString
  | String a s' => String (lower_char a) (lower s')
  end.

(** The parsed arguments. *)
Record Args := mk_args {
  excel : string;
  sheet : option string;
  out : option string;
  na : string
}.

(** [args.sheet and args.sheet.lower() == "all"] *)
Definition all_sheets (a : Args) : bool :=
  match sheet a with
  | Some s => negb (String.eqb s "") && String.eqb (lower s) "all"
  | None => false
  end.

(** [for k in dfs: dfs[k] = dfs[k].fillna(na)] *)
Definition filled (na : string) (dfs : list (string * DataFrame))
  : list (string * DataFrame) :=
  map (fun kv => (fst kv, fillna na (snd kv))) dfs.

Section Command.
Context `{Display}.

(** Lines 74 to 84: the page to write. With no [--sheet], [read_excel] is
    called with [sheet_name=None] and returns the dictionary of all sheets,
    which has no [fillna]. *)
Definition render (a : Args) (w : World) : result string :=
  if all_sheets a then
    match read_excel_all (excel a) w with
    | Ok dfs => Ok (dfs_to_html (filled (na a) dfs))
    | Raise e => Raise e
    end
  else
    match sheet a with
    | Some name =>
        match read_excel_sheet (excel a) name w with
        | Ok df => Ok (df_to_html (fillna (na a) df) "table1")
        | Raise e => Raise e
        end
    | None =>
        match read_excel_all (excel a) w with
        | Ok _ => Raise AttributeError
        | Raise e => Raise e
        end
    end.

(** Lines 86 to 92: to the file, or to the standard output. *)
Definition emit (a : Args) (html : string) (w : World) : result World :=
  match out a with
  | Some path =>
      if String.eqb path "" then
        Ok (mk_world (workbooks w) (files w) (unwritable w) (stdout w +:+ html))
      else if bool_decide (path ∈ unwritable w) then Raise OSError
      else
        Ok (mk_world (workbooks w) (<[path := html]> (files w)) (unwritable w)
                     (stdout w +:+ "Written HTML to: " +:+ path +:+ nl))
  | None =>
      Ok (mk_world (workbooks w) (files w) (unwritable w) (stdout w +:+ html))
  end.

(** [main()]: the exit status and the files it leaves. An exception no one
    catches ends the run with status 1. *)
Definition main (a : Args) (w : World) : nat * World :=
  match render a w with
  | Ok html =>
      match emit a html w with
      | Ok w' => (0, w')
      | Raise _ => (1, w)
      end
  | Raise _ => (1, w)
  end.

End Command.

Definition plain_display : Display :=
  {| display_cell := fun s => s; display_label := fun s => s;
     border_zero := false |}.

(** ** Counting table tags *)

(** The number of places of a text at which [<table] starts. *)
Fixpoint count_tables (s : string) : nat :=
  match s with
  | EmptyString => 0
  | String _ s' => (if String.prefix "<table" s then 1 else 0) + count_tables s'
  end.

(** Whether a character occurs in a text; the last and the first character
    of a text; a text without its last and without its first character. *)
Fixpoint occurs (a : ascii) (s : string) : bool :=
  match s with
  | EmptyString => false
  | String b s' => Ascii.eqb a b || occurs a s'
  end.

Fixpoint last_char (s : string) : option ascii :=
  match s with
  | EmptyString => None
  | String a EmptyString => Some a
  | String _ s' => last_char s'
  end.


Fixpoint butlast (s : string) : string :=
  match s with
  | EmptyString => EmptyString
  | String _ EmptyString => EmptyString
  | String a s' => String a (butlast s')
  end.


(** A text ends clear when its last character is none of [<tabl], and
    starts clear when its first is none of [table]: no [<table] can then
    begin in a text before it, or go on in a text after it. *)
Definition ends_clear (s : string) : bool :=
  match last_char s with
  | Some c => negb (occurs c "<tabl")
  | None => true
  end.


(** A text is quiet when it holds no [<table] and ends so that none can
    start in it. *)
Definition quiet (s : string) : Prop :=
  count_tables s = 0 /\ ends_clear s = true.

Section Parts.
Context `{Display}.



End Parts.


(** Two sheets, and a world that has one workbook. *)
Definition january : DataFrame :=
  mk_frame ["Day"; "Note"] [[Some "1"; Some "a < b"]; [Some "2"; None]].

Definition february : DataFrame :=
  mk_frame ["Day"] [[Some "3"]].

Definition world_of (wb : list (string * DataFrame)) : World :=
  mk_world {["book.xlsx" := wb]} ∅ ∅ "".

Definition two_sheets : list (string * DataFrame) :=
  [("January", january); ("February", february)].

End ExcelToHTML.

(** * Properties of the spreadsheet demo *)

Module ExcelDataHandlingProperties.
Import ExcelDataHandling.


(** ** Running the store computations *)

Lemma bind_run {A B} (m : M A) (f : A -> M B) (h h' : heap) (a : A) :
  m h = Some (a, h') -> (m ≫= f) h = f a h'.
Proof. intros E. unfold mbind, M_bind. now rewrite E. Qed.

Lemma alloc_run (h l : heap) (o : object) :
  alloc o (h ++ l) = Some (length h + length l, h ++ (l ++ [o])).
Proof. unfold alloc. now rewrite length_app, <- app_assoc. Qed.

Lemma frame_of_run (h l : heap) (k : nat) (d : DataFrame) :
  l !! k = Some (Frame d) ->
  frame_of (length h + k) (h ++ l) = Some (d, h ++ l).
Proof.
  intros E. unfold frame_of.
  rewrite lookup_app_r by lia.
  replace (length h + k - length h) with k by lia. now rewrite E.
Qed.

Lemma pivot_of_run (h l : heap) (k : nat) (p : PivotTable) :
  l !! k = Some (Pivot p) ->
  pivot_of (length h + k) (h ++ l) = Some (p, h ++ l).
Proof.
  intros E. unfold pivot_of.
  rewrite lookup_app_r by lia.
  replace (length h + k - length h) with k by lia. now rewrite E.
Qed.

Lemma store_run (h l : heap) (k : nat) (d : DataFrame) :
  k < length l ->
  store (length h + k) d (h ++ l) = Some (tt, h ++ <[k := Frame d]> l).
Proof.
  intros L. unfold store.
  rewrite bool_decide_eq_true_2 by (rewrite length_app; lia).
  now rewrite insert_app_r.
Qed.

(** ** Shapes: columns and row counts *)

Lemma length_column (df : DataFrame) (c : string) :
  length (column df c) = length (rows df).
Proof. unfold column. apply length_map. Qed.

Lemma rows_assign_length (df : DataFrame) (c : string) (s : Series) :
  length s = length (rows df) ->
  length (rows (assign df c s)) = length (rows df).
Proof. intros E. cbn. rewrite length_zip_with. lia. Qed.

Lemma has_column_columns_with (c c' : string) (df : DataFrame) :
  existsb (String.eqb c') (columns_with c df) = has_column c' df || String.eqb c' c.
Proof.
  unfold columns_with, has_column.
  destruct (existsb (String.eqb c) (columns df)) eqn:E.
  - destruct (String.eqb_spec c' c) as [->|]; [|now rewrite orb_false_r].
    now rewrite E.
  - rewrite existsb_app. cbn. now rewrite orb_false_r.
Qed.

Lemma has_column_assign (c c' : string) (df : DataFrame) (s : Series) :
  has_column c' (assign df c s) = has_column c' df || String.eqb c' c.
Proof. apply has_column_columns_with. Qed.

Lemma has_column_assign_scalar (c c' : string) (df : DataFrame) (v : cell) :
  has_column c' (assign_scalar df c v) = has_column c' df || String.eqb c' c.
Proof. apply has_column_columns_with. Qed.

Lemma cell_at_insert (r : gmap string cell) (c : string) (v : cell) :
  cell_at (<[c := v]> r) c = v.
Proof. unfold cell_at. now rewrite lookup_insert_eq. Qed.

Lemma cell_at_insert_ne (r : gmap string cell) (c c' : string) (v : cell) :
  c ≠ c' -> cell_at (<[c := v]> r) c' = cell_at r c'.
Proof. intros N. unfold cell_at. now rewrite lookup_insert_ne. Qed.

(** ** Sorting *)

Section Sorting.
Context {A : Type} (leb : A -> A -> bool).

Lemma in_insert_sorted (x a : A) (l : list A) :
  In x (insert_sorted leb a l) <-> x = a \/ In x l.
Proof.
  induction l as [|y l IH]; cbn; [intuition|].
  destruct (leb a y); cbn; [intuition|]. rewrite IH. intuition.
Qed.

Lemma in_sort_by (x : A) (l : list A) : In x (sort_by leb l) <-> In x l.
Proof.
  induction l as [|a l IH]; cbn; [done|].
  rewrite in_insert_sorted, IH. intuition.
Qed.



Hypothesis leb_total : forall a b, leb a b = false -> leb b a = true.



Hypothesis leb_trans :
  forall a b c, leb a b = true -> leb b c = true -> leb a c = true.


End Sorting.

(** ** The order of keys is total *)






(** ** The order of keys is an order *)

Section Order.
Context {A : Type} (cmp : A -> A -> comparison).
Hypothesis cmp_eq : forall a b, cmp a b = Eq -> a = b.
Hypothesis cmp_lt_trans :
  forall a b c, cmp a b = Lt -> cmp b c = Lt -> cmp a c = Lt.


End Order.









(** ** Groups *)

Section Groups.
Variable keys : list string.

Lemma group_of_add (k k' : list cell) (r : gmap string cell)
    (gs : list (list cell * list (gmap string cell))) :
  group_of k' (add_to_group k r gs)
  = if decide (k = k') then group_of k gs ++ [r] else group_of k' gs.
Proof.
  induction gs as [|g gs IH]; cbn.
  - destruct (decide (k = k')); [now subst|done].
  - destruct (decide (fst g = k)) as [E|N]; cbn.
    + destruct (decide (fst g = k')) as [E'|N'];
        destruct (decide (k = k')); congruence.
    + destruct (decide (fst g = k')) as [E'|N']; [|apply IH].
      destruct (decide (k = k')); congruence.
Qed.

Lemma keys_add (k : list cell) (r : gmap string cell)
    (gs : list (list cell * list (gmap string cell))) (k' : list cell) :
  In k' (map fst (add_to_group k r gs)) <-> k' = k \/ In k' (map fst gs).
Proof.
  induction gs as [|g gs IH]; cbn; [intuition|].
  destruct (decide (fst g = k)) as [E|N]; cbn; [|rewrite IH]; intuition congruence.
Qed.

Lemma nodup_add (k : list cell) (r : gmap string cell)
    (gs : list (list cell * list (gmap string cell))) :
  List.NoDup (map fst gs) -> List.NoDup (map fst (add_to_group k r gs)).
Proof.
  induction gs as [|g gs IH]; cbn; intros N.
  - constructor; [intros []|constructor].
  - apply List.NoDup_cons_iff in N as [N1 N2].
    destruct (decide (fst g = k)) as [E|Ne]; cbn.
    + now constructor.
    + constructor; [|now apply IH].
      rewrite keys_add. intuition.
Qed.

Lemma group_rows_snoc (l : list (gmap string cell)) (r : gmap string cell) :
  group_rows keys (l ++ [r]) = group_step keys (group_rows keys l) r.
Proof. unfold group_rows. now rewrite fold_left_app. Qed.

Lemma filter_snoc {B} (f : B -> bool) (l : list B) (b : B) :
  List.filter f (l ++ [b]) = List.filter f l ++ (if f b then [b] else []).
Proof. now rewrite List.filter_app. Qed.

(** The group of a key holds the rows with that key, in their order. *)
Lemma group_of_group_rows (k : list cell) (l : list (gmap string cell)) :
  group_of k (group_rows keys l) = List.filter (in_group keys k) l.
Proof.
  induction l as [|r l IH] using rev_ind; [done|].
  rewrite group_rows_snoc, filter_snoc. unfold group_step, in_group.
  destruct (group_key keys r) as [k'|] eqn:E.
  - rewrite group_of_add, IH.
    destruct (decide (k' = k)) as [->|N].
    + now rewrite IH, bool_decide_eq_true_2 by done.
    + rewrite bool_decide_eq_false_2 by congruence. now rewrite app_nil_r.
  - rewrite bool_decide_eq_false_2 by congruence. now rewrite app_nil_r.
Qed.

Lemma nodup_group_rows (l : list (gmap string cell)) :
  List.NoDup (map fst (group_rows keys l)).
Proof.
  induction l as [|r l IH] using rev_ind; [constructor|].
  rewrite group_rows_snoc. unfold group_step.
  destruct (group_key keys r); [now apply nodup_add|done].
Qed.

(** There is a group for exactly the keys that rows have. *)
Lemma keys_group_rows (k : list cell) (l : list (gmap string cell)) :
  In k (map fst (group_rows keys l)) <->
  exists r, In r l /\ group_key keys r = Some k.
Proof.
  induction l as [|r l IH] using rev_ind.
  - cbn. split; [done|]. now intros (? & [] & _).
  - rewrite group_rows_snoc. unfold group_step.
    destruct (group_key keys r) as [k'|] eqn:E.
    + rewrite keys_add, IH. split.
      * intros [->|(r0 & Hin & Hk)].
        -- exists r. split; [apply in_or_app; right; now left|done].
        -- exists r0. split; [apply in_or_app; now left|done].
      * intros (r0 & Hin & Hk). apply in_app_or in Hin as [Hin|[<-|[]]].
        -- right. now exists r0.
        -- left. congruence.
    + rewrite IH. split.
      * intros (r0 & Hin & Hk). exists r0. split; [apply in_or_app; now left|done].
      * intros (r0 & Hin & Hk). apply in_app_or in Hin as [Hin|[<-|[]]].
        -- now exists r0.
        -- congruence.
Qed.

Lemma group_of_in (g : list cell * list (gmap string cell))
    (gs : list (list cell * list (gmap string cell))) :
  List.NoDup (map fst gs) -> In g gs -> group_of (fst g) gs = snd g.
Proof.
  induction gs as [|g' gs IH]; cbn; [done|]. intros N Hin.
  apply List.NoDup_cons_iff in N as [N1 N2].
  destruct (decide (fst g' = fst g)) as [E|Ne].
  - destruct Hin as [->|Hin]; [done|].
    exfalso. apply N1. rewrite E. now apply in_map.
  - destruct Hin as [->|Hin]; [done|]. now apply IH.
Qed.

(** A group of [groupby] holds exactly the rows of the frame with its key. *)
Lemma in_groupby (df : DataFrame) (g : list cell * list (gmap string cell)) :
  In g (groupby keys df) ->
  snd g = List.filter (in_group keys (fst g)) (rows df) /\
  exists r, In r (rows df) /\ group_key keys r = Some (fst g).
Proof.
  unfold groupby. rewrite in_sort_by. intros Hin. split.
  - rewrite <- group_of_group_rows. symmetry.
    apply group_of_in; [apply nodup_group_rows|done].
  - apply keys_group_rows. now apply in_map.
Qed.

End Groups.

(** ** The rows of [groupby(...).sum()] *)

Lemma group_key_Some (keys : list string) (r : gmap string cell) (k : list cell) :
  group_key keys r = Some k <->
  row_key keys r = k /\ forallb notna k = true.
Proof.
  unfold group_key. destruct (forallb notna (row_key keys r)) eqn:E.
  - split; [intros [= <-]; done|intros [<- _]; done].
  - split; [done|]. intros [<- E']. congruence.
Qed.





(** ** The cells of a pivot table *)




Section Pivot.
Variables (index cols values : string) (fill : cell) (df : DataFrame).

Let keys := [index; cols].

Lemma length_key (g : list cell * list (gmap string cell)) :
  In g (groupby keys df) -> exists i c, fst g = [i; c].
Proof.
  intros Hg. apply in_groupby in Hg as (_ & r & _ & Hk).
  apply group_key_Some in Hk as [<- _]. now exists (cell_at r index), (cell_at r cols).
Qed.





End Pivot.


Section Run.
Context `{Converters}.

Lemma has_amount_with_amount (df : DataFrame) :
  has_column "Amount" (with_amount df) = true.
Proof.
  unfold with_amount. destruct (has_column "Amount" df) eqn:E; [done|].
  rewrite has_column_assign_scalar. now rewrite orb_true_r.
Qed.

Lemma has_amount_coerced (df : DataFrame) :
  has_column "Amount" (coerced df) = true.
Proof. unfold coerced. rewrite has_column_assign. apply orb_true_r. Qed.

Lemma has_amount_with_year_month (df : DataFrame) :
  has_column "Amount" df = true ->
  has_column "Amount" (with_year_month df) = true.
Proof.
  intros E. unfold with_year_month, parsed_date.
  destruct (has_column "Date" df); [|done].
  now rewrite !has_column_assign, E.
Qed.

Lemma has_amount_derived (df : DataFrame) :
  has_column "Amount" (derived df) = true.
Proof.
  unfold derived, with_vat. rewrite has_column_assign.
  now rewrite has_amount_with_year_month by apply has_amount_coerced.
Qed.

Lemma length_coerce_amount (df : DataFrame) :
  length (coerce_amount (column df "Amount")) = length (rows df).
Proof.
  unfold coerce_amount, fillna, to_numeric.
  now rewrite !length_map, length_column.
Qed.

Lemma length_vat_20 (df : DataFrame) :
  length (vat_20 (column df "Amount")) = length (rows df).
Proof.
  unfold vat_20, round, mul. now rewrite !length_map, length_column.
Qed.

Lemma copy_run (h l : heap) (k : nat) (d : DataFrame) :
  l !! k = Some (Frame d) ->
  copy (length h + k) (h ++ l) = Some (length h + length l, h ++ (l ++ [Frame d])).
Proof.
  intros E. unfold copy.
  erewrite bind_run by (eapply frame_of_run; eassumption). apply alloc_run.
Qed.

Lemma contains_run (h l : heap) (k : nat) (d : DataFrame) (c : string) :
  l !! k = Some (Frame d) ->
  contains (length h + k) c (h ++ l) = Some (has_column c d, h ++ l).
Proof.
  intros E. unfold contains.
  now erewrite bind_run by (eapply frame_of_run; eassumption).
Qed.

Lemma getitem_run (h l : heap) (k : nat) (d : DataFrame) (c : string) :
  l !! k = Some (Frame d) -> has_column c d = true ->
  getitem (length h + k) c (h ++ l) = Some (column d c, h ++ l).
Proof.
  intros E Hc. unfold getitem.
  erewrite bind_run by (eapply frame_of_run; eassumption). now rewrite Hc.
Qed.

Lemma setitem_run (h l : heap) (k : nat) (d : DataFrame) (c : string) (s : Series) :
  l !! k = Some (Frame d) -> length s = length (rows d) ->
  setitem (length h + k) c s (h ++ l)
  = Some (tt, h ++ <[k := Frame (assign d c s)]> l).
Proof.
  intros E Hs. unfold setitem.
  erewrite bind_run by (eapply frame_of_run; eassumption).
  rewrite bool_decide_eq_true_2 by done.
  apply store_run. now apply lookup_lt_Some in E.
Qed.

Lemma setitem_scalar_run (h l : heap) (k : nat) (d : DataFrame) (c : string)
    (v : cell) :
  l !! k = Some (Frame d) ->
  setitem_scalar (length h + k) c v (h ++ l)
  = Some (tt, h ++ <[k := Frame (assign_scalar d c v)]> l).
Proof.
  intros E. unfold setitem_scalar.
  erewrite bind_run by (eapply frame_of_run; eassumption).
  apply store_run. now apply lookup_lt_Some in E.
Qed.

Lemma getitem_mask_run (h l : heap) (k : nat) (d : DataFrame) (mask : list bool) :
  l !! k = Some (Frame d) -> length mask = length (rows d) ->
  getitem_mask (length h + k) mask (h ++ l)
  = Some (length h + length l, h ++ (l ++ [Frame (select d mask)])).
Proof.
  intros E Hm. unfold getitem_mask.
  erewrite bind_run by (eapply frame_of_run; eassumption).
  rewrite bool_decide_eq_true_2 by done. apply alloc_run.
Qed.

Lemma groupby_sum_run (h l : heap) (k : nat) (d : DataFrame)
    (keys : list string) (val : string) :
  l !! k = Some (Frame d) ->
  groupby_sum (length h + k) keys val (h ++ l)
  = Some (length h + length l, h ++ (l ++ [Frame (groupby_sum_frame keys val d)])).
Proof.
  intros E. unfold groupby_sum.
  erewrite bind_run by (eapply frame_of_run; eassumption). apply alloc_run.
Qed.

Lemma sort_values_run (h l : heap) (k : nat) (d : DataFrame) (keys : list string) :
  l !! k = Some (Frame d) ->
  sort_values (length h + k) keys (h ++ l)
  = Some (length h + length l, h ++ (l ++ [Frame (sort_values_frame keys d)])).
Proof.
  intros E. unfold sort_values.
  erewrite bind_run by (eapply frame_of_run; eassumption). apply alloc_run.
Qed.

Lemma pivot_table_run (h l : heap) (k : nat) (d : DataFrame)
    (index cols values : string) (fill : cell) :
  l !! k = Some (Frame d) ->
  pivot_table (length h + k) index cols values fill (h ++ l)
  = Some (length h + length l,
          h ++ (l ++ [Pivot (pivot_table_frame index cols values fill d)])).
Proof.
  intros E. unfold pivot_table.
  erewrite bind_run by (eapply frame_of_run; eassumption). apply alloc_run.
Qed.

Lemma sort_index_run (h l : heap) (k : nat) (p : PivotTable) :
  l !! k = Some (Pivot p) ->
  sort_index (length h + k) (h ++ l)
  = Some (length h + length l, h ++ (l ++ [Pivot (sort_index_pivot p)])).
Proof.
  intros E. unfold sort_index.
  erewrite bind_run by (eapply pivot_of_run; eassumption). apply alloc_run.
Qed.

(** The conditional blocks of the script. *)

Lemma ensure_amount_run (h l : heap) (k : nat) (d : DataFrame) :
  l !! k = Some (Frame d) ->
  (if negb (has_column "Amount" d)
   then setitem_scalar (length h + k) "Amount" (Num 1)
   else mret tt) (h ++ l)
  = Some (tt, h ++ <[k := Frame (with_amount d)]> l).
Proof.
  intros E. unfold with_amount.
  destruct (has_column "Amount" d); cbn [negb].
  - now rewrite list_insert_id.
  - now apply setitem_scalar_run.
Qed.

Lemma year_month_run (h l : heap) (k : nat) (d : DataFrame) :
  l !! k = Some (Frame d) ->
  (if has_column "Date" d
   then
     date ← getitem (length h + k) "Date";
     setitem (length h + k) "Date" (to_datetime date);;
     date ← getitem (length h + k) "Date";
     setitem (length h + k) "YearMonth" (to_period_M_str date)
   else mret tt) (h ++ l)
  = Some (tt, h ++ <[k := Frame (with_year_month d)]> l).
Proof.
  intros E. unfold with_year_month.
  destruct (has_column "Date" d) eqn:Hd.
  - pose proof (lookup_lt_Some _ _ _ E) as Lk.
    erewrite bind_run by (eapply getitem_run; eassumption).
    erewrite bind_run; cycle 1.
    { apply setitem_run; [done|].
      unfold to_datetime. now rewrite length_map, length_column. }
    erewrite bind_run; cycle 1.
    { apply getitem_run; [now apply list_lookup_insert_eq|].
      rewrite has_column_assign, Hd. done. }
    rewrite (setitem_run h _ k (parsed_date d)).
    + now rewrite list_insert_insert_eq.
    + now apply list_lookup_insert_eq.
    + unfold to_period_M_str. now rewrite length_map, length_column.
  - now rewrite list_insert_id.
Qed.

Lemma synth_category_run (h l : heap) (k k' : nat) (d d' : DataFrame) :
  l !! k = Some (Frame d) -> l !! k' = Some (Frame d') -> k ≠ k' ->
  (if negb (has_column "Category" d)
   then
     setitem_scalar (length h + k) "Category" (Text "All");;
     setitem_scalar (length h + k') "Category" (Text "All")
   else mret tt) (h ++ l)
  = Some (tt, h ++ <[k' := Frame (with_category (has_column "Category" d) d')]>
                     (<[k := Frame (with_category (has_column "Category" d) d)]> l)).
Proof.
  intros E E' Hk. unfold with_category.
  destruct (has_column "Category" d); cbn [negb].
  - rewrite (list_insert_id l k) by done. now rewrite list_insert_id.
  - erewrite bind_run by (eapply setitem_scalar_run; eassumption).
    apply setitem_scalar_run. now rewrite list_lookup_insert_ne.
Qed.

Lemma manipulate_run (h : heap) (r : ref) (df : DataFrame) :
  h !! r = Some (Frame df) ->
  manipulate r h =
    Some ((length h + 1, length h + 3, length h + 5,
           if has_column "YearMonth" (cleaned df) then Some (length h + 7) else None),
          h ++ [Frame (dropna_all df); Frame (cleaned df);
                Frame (positive_rows df); Frame (positive_only df);
                Frame (sums df); Frame (totals df)]
            ++ match pivot df with
               | Some p => [Pivot (pivot_unsorted df); Pivot p]
               | None => []
               end).
Proof.
  intros Hr. unfold manipulate.
  unfold dropna at 1.
  erewrite bind_run; cycle 1.
  { erewrite bind_run; [|unfold frame_of; rewrite Hr; reflexivity].
    rewrite <- (app_nil_r h) at 1. apply alloc_run. }
  cbn [length app Nat.add].
  erewrite bind_run by (eapply copy_run; reflexivity). cbn [length app].
  erewrite bind_run by (eapply contains_run; reflexivity).
  erewrite bind_run by (eapply ensure_amount_run; reflexivity).
  cbn [insert list_insert].
  erewrite bind_run
    by (eapply getitem_run; [reflexivity | apply has_amount_with_amount]).
  erewrite bind_run
    by (eapply setitem_run; [reflexivity | apply length_coerce_amount]).
  cbn [insert list_insert].
  erewrite bind_run by (eapply contains_run; reflexivity).
  erewrite bind_run by (eapply year_month_run; reflexivity).
  cbn [insert list_insert].
  erewrite bind_run
    by (eapply getitem_run;
        [reflexivity | apply has_amount_with_year_month, has_amount_coerced]).
  erewrite bind_run
    by (eapply setitem_run; [reflexivity | apply length_vat_20]).
  cbn [insert list_insert].
  erewrite bind_run
    by (eapply getitem_run; [reflexivity | apply has_amount_derived]).
  erewrite bind_run
    by (eapply getitem_mask_run;
        [reflexivity | unfold gt0; now rewrite length_map, length_column]).
  cbn [length app].
  erewrite bind_run by (eapply copy_run; reflexivity). cbn [length app].
  erewrite bind_run by (eapply contains_run; reflexivity).
  erewrite bind_run
    by (eapply (synth_category_run _ _ 1 3); [reflexivity | reflexivity | lia]).
  cbn [insert list_insert].
  erewrite bind_run by (eapply contains_run; reflexivity).
  unfold pivot, totals, sums, group_keys.
  change (has_column "YearMonth" _) with (has_column "YearMonth" (cleaned df)).
  destruct (has_column "YearMonth" (cleaned df)); cbv iota.
  - erewrite bind_run by (eapply groupby_sum_run; reflexivity). cbn [length app].
    erewrite bind_run by (eapply sort_values_run; reflexivity). cbn [length app].
    erewrite bind_run by (eapply pivot_table_run; reflexivity). cbn [length app].
    erewrite bind_run by (eapply sort_index_run; reflexivity). cbn [length app].
    reflexivity.
  - erewrite bind_run by (eapply groupby_sum_run; reflexivity). cbn [length app].
    erewrite bind_run by (eapply sort_values_run; reflexivity). cbn [length app].
    reflexivity.
Qed.
(** A run of [manipulate] on a frame returns, and returns these tables. *)
Lemma run_manipulate_eq (df : DataFrame) :
  run_manipulate df
  = Some (cleaned df, positive_only df, totals df, pivot df).
Proof.
  unfold run_manipulate.
  rewrite (manipulate_run [Frame df] 0 df eq_refl).
  unfold pivot. now destruct (has_column "YearMonth" (cleaned df)).
Qed.

(** ** Row by row *)

Lemma zip_with_map_r {A B C} (f : A -> B -> C) (g : A -> B) (l : list A) :
  zip_with f l (map g l) = map (fun a => f a (g a)) l.
Proof. induction l as [|a l IH]; [done|]. cbn. now rewrite IH. Qed.

Lemma rows_assign_map (df : DataFrame) (c : string)
    (g : gmap string cell -> cell) :
  rows (assign df c (map g (rows df))) = map (fun r => <[c := g r]> r) (rows df).
Proof. cbn. apply zip_with_map_r. Qed.

Lemma rows_with_amount (df : DataFrame) :
  rows (with_amount df) = map (amount_row (has_column "Amount" df)) (rows df).
Proof.
  unfold with_amount, amount_row.
  destruct (has_column "Amount" df); [now rewrite map_id|done].
Qed.

Lemma rows_coerced (df : DataFrame) :
  rows (coerced df) = map coerce_row (rows df).
Proof.
  unfold coerced, coerce_amount, fillna, to_numeric, column.
  rewrite !map_map. apply rows_assign_map.
Qed.

Lemma rows_parsed_date (df : DataFrame) :
  rows (parsed_date df)
  = map (fun r => <["Date" := to_datetime_cell (cell_at r "Date")]> r) (rows df).
Proof.
  unfold parsed_date, to_datetime, column. rewrite map_map.
  apply rows_assign_map.
Qed.

Lemma rows_with_year_month (df : DataFrame) :
  rows (with_year_month df)
  = map (year_month_row (has_column "Date" df)) (rows df).
Proof.
  unfold with_year_month, year_month_row.
  destruct (has_column "Date" df); [|now rewrite map_id].
  unfold to_period_M_str, column. rewrite map_map.
  rewrite (rows_assign_map (parsed_date df) "YearMonth"
             (fun r => period_cell (cell_at r "Date"))).
  rewrite rows_parsed_date, map_map.
  apply map_ext. intros r. now rewrite cell_at_insert.
Qed.

Lemma rows_with_vat (df : DataFrame) :
  rows (with_vat df) = map vat_row (rows df).
Proof.
  unfold with_vat, vat_20, round, mul, column, vat_row. rewrite !map_map.
  rewrite <- (rows_assign_map df "VAT_20" (fun r => vat_cell (cell_at r "Amount"))).
  do 2 f_equal. apply map_ext. intros r. now destruct (cell_at r "Amount").
Qed.

Lemma rows_with_category (present : bool) (df : DataFrame) :
  rows (with_category present df) = map (category_row present) (rows df).
Proof.
  unfold with_category, category_row.
  destruct present; [now rewrite map_id|done].
Qed.

Lemma has_column_dropna_all (c : string) (df : DataFrame) :
  has_column c (dropna_all df) = has_column c df.
Proof. reflexivity. Qed.

Lemma has_date_coerced_with_amount (df : DataFrame) :
  has_column "Date" (coerced (with_amount df)) = has_column "Date" df.
Proof.
  unfold coerced, with_amount. rewrite has_column_assign.
  destruct (has_column "Amount" df); [|rewrite has_column_assign_scalar];
    cbn; now rewrite ?orb_false_r.
Qed.

Lemma rows_derived (df : DataFrame) :
  rows (derived df) = map (derive_row df) (rows (dropna_all df)).
Proof.
  unfold derived, derive_row.
  rewrite rows_with_vat, rows_with_year_month, rows_coerced, rows_with_amount.
  rewrite has_date_coerced_with_amount, !has_column_dropna_all.
  now rewrite !map_map.
Qed.

Lemma select_map_filter (df : DataFrame) (f : gmap string cell -> bool) :
  rows (select df (map f (rows df))) = List.filter f (rows df).
Proof.
  cbn. induction (rows df) as [|r l IH]; [done|].
  cbn. destruct (f r); cbn; now rewrite IH.
Qed.

Lemma rows_positive_rows (df : DataFrame) :
  rows (positive_rows df) = List.filter positive_row (rows (derived df)).
Proof.
  unfold positive_rows, gt0, column. rewrite map_map.
  apply (select_map_filter (derived df) positive_row).
Qed.

Lemma cell_at_category_row (present : bool) (r : gmap string cell) (c : string) :
  c ≠ "Category" -> cell_at (category_row present r) c = cell_at r c.
Proof.
  intros N. unfold category_row. destruct present; [done|].
  now apply cell_at_insert_ne.
Qed.

Lemma filter_map_commute {A B} (f : A -> B) (p : B -> bool) (q : A -> bool)
    (l : list A) :
  (forall a, p (f a) = q a) ->
  List.filter p (map f l) = map f (List.filter q l).
Proof.
  intros E. induction l as [|a l IH]; [done|].
  cbn. rewrite E. destruct (q a); cbn; now rewrite IH.
Qed.

(** Filtering the positive rows and synthesising the category commute: the
    second table is the positive part of the first. *)
Lemma rows_positive_only (df : DataFrame) :
  rows (positive_only df) = List.filter positive_row (rows (cleaned df)).
Proof.
  unfold positive_only, cleaned.
  rewrite !rows_with_category, rows_positive_rows.
  symmetry. apply filter_map_commute. intros r. unfold positive_row.
  now rewrite cell_at_category_row.
Qed.


Lemma cell_at_amount_derive_row (df : DataFrame) (r : gmap string cell) :
  cell_at (derive_row df r) "Amount"
  = coerce_cell (cell_at (amount_row (has_column "Amount" df) r) "Amount").
Proof.
  unfold derive_row, vat_row, year_month_row, coerce_row.
  rewrite cell_at_insert_ne by done.
  destruct (has_column "Date" df);
    rewrite ?(cell_at_insert_ne _ "YearMonth"), ?(cell_at_insert_ne _ "Date") by done;
    apply cell_at_insert.
Qed.

Lemma cell_at_vat_derive_row (df : DataFrame) (r : gmap string cell) :
  cell_at (derive_row df r) "VAT_20"
  = vat_cell (cell_at (derive_row df r) "Amount").
Proof.
  unfold derive_row at 1, vat_row. rewrite cell_at_insert. f_equal.
  unfold derive_row, vat_row. now rewrite cell_at_insert_ne.
Qed.

Lemma coerce_cell_num (c : cell) : exists a : Qc, coerce_cell c = Num a.
Proof.
  unfold coerce_cell. destruct c as [|s|x|d]; cbn; eauto.
  - destruct (str_to_number s); cbn; eauto.
  - destruct (datetime_to_number d); cbn; eauto.
Qed.

(** Every row of the first table comes from a row of the input that has a
    cell. *)
Lemma in_rows_cleaned (df : DataFrame) (r : gmap string cell) :
  In r (rows (cleaned df)) <->
  exists r0, In r0 (rows df) /\ all_missing (columns df) r0 = false /\
             r = category_row (has_column "Category" (derived df))
                   (derive_row df r0).
Proof.
  unfold cleaned. rewrite rows_with_category, rows_derived, map_map, in_map_iff.
  unfold dropna_all; cbn [rows columns].
  split.
  - intros (r0 & <- & Hin). apply filter_In in Hin as [Hin Hm].
    exists r0. repeat split; [done|]. now apply negb_true_iff.
  - intros (r0 & Hin & Hm & ->). exists r0. split; [done|].
    apply filter_In. split; [done|]. now apply negb_true_iff.
Qed.


(** C7. Coercing the Amount column twice gives the column coercing it once
    gives. *)
Theorem amount_coercion_idempotent (s : Series) :
  fillna (Num 0) (to_numeric (fillna (Num 0) (to_numeric s)))
  = fillna (Num 0) (to_numeric s).
Proof.
  unfold fillna, to_numeric. rewrite !map_map. apply map_ext. intros c.
  change (if isna (to_numeric_cell c) then Num 0 else to_numeric_cell c)
    with (coerce_cell c).
  destruct (coerce_cell_num c) as [a Ha]. rewrite Ha. reflexivity.
Qed.

(** C8. A run of [manipulate] on the frame at [r] returns, and the store it
    leaves holds every object of the store it started from unchanged; the
    frame at [r] in particular. The four tables it returns are new objects. *)
Theorem manipulate_leaves_input_unchanged (h : heap) (r : ref) (df : DataFrame) :
  h !! r = Some (Frame df) ->
  exists clean pos tot piv h',
    manipulate r h = Some ((clean, pos, tot, piv), h') /\
    h' !! r = Some (Frame df) /\
    (forall r' o, h !! r' = Some o -> h' !! r' = Some o) /\
    length h <= clean /\ length h <= pos /\ length h <= tot /\
    (forall p, piv = Some p -> length h <= p).
Proof.
  intros Hr. do 5 eexists. split; [exact (manipulate_run h r df Hr)|].
  split; [now apply lookup_app_l_Some|].
  split; [intros r' o Ho; now apply lookup_app_l_Some|].
  repeat split; try lia.
  intros p. destruct (has_column "YearMonth" (cleaned df)); [|done].
  intros [= <-]. lia.
Qed.

Lemma filter_all {A} (f : A -> bool) (l : list A) :
  (forall a, In a l -> f a = true) -> List.filter f l = l.
Proof.
  induction l as [|a l IH]; [done|]. intros E. cbn.
  rewrite (E a) by now left. f_equal. apply IH. intros b Hb. apply E. now right.
Qed.

Lemma vat_of_one : round_number 2 (1 * Q2Qc (20 # 100)) = Q2Qc (2 # 10).
Proof. apply Qc_is_canon. now vm_compute. Qed.

(** C10. For an input without an Amount column, every row of the cleaned
    table has Amount 1 and VAT_20 0.2, the positive-only table has all of
    its rows, and these are the rows of the input that are not empty, one
    for one. *)
Theorem missing_amount_is_one (df : DataFrame) :
  has_column "Amount" df = false ->
  exists clean pos tot piv,
    run_manipulate df = Some (clean, pos, tot, piv) /\
    (forall r, In r (rows clean) ->
       cell_at r "Amount" = Num 1 /\ cell_at r "VAT_20" = Num (Q2Qc (2 # 10))) /\
    rows pos = rows clean /\
    length (rows clean)
    = length (List.filter (fun r => negb (all_missing (columns df) r)) (rows df)).
Proof.
  intros Hno.
  exists (cleaned df), (positive_only df), (totals df), (pivot df).
  split; [apply run_manipulate_eq|].
  assert (Hrow : forall r, In r (rows (cleaned df)) ->
            cell_at r "Amount" = Num 1 /\
            cell_at r "VAT_20" = Num (Q2Qc (2 # 10))).
  { intros r Hr. apply in_rows_cleaned in Hr as (r0 & _ & _ & ->).
    rewrite !cell_at_category_row by done.
    rewrite cell_at_vat_derive_row, cell_at_amount_derive_row, Hno.
    unfold amount_row. rewrite cell_at_insert. cbn.
    now rewrite vat_of_one. }
  split; [exact Hrow|]. split.
  - rewrite rows_positive_only. apply filter_all. intros r Hr.
    unfold positive_row. now rewrite (proj1 (Hrow r Hr)).
  - unfold cleaned. rewrite rows_with_category, rows_derived.
    now rewrite !length_map.
Qed.


(** The cleaned table has a year-month column when the input has a Date
    column, from which line 62 derives it, or has one of its own. *)
Lemma has_year_month_cleaned (df : DataFrame) :
  has_column "YearMonth" (cleaned df)
  = has_column "Date" df || has_column "YearMonth" df.
Proof.
  unfold cleaned, with_category, derived, with_vat.
  assert (E : has_column "YearMonth" (with_year_month (coerced (with_amount (dropna_all df))))
              = has_column "Date" df || has_column "YearMonth" df).
  { unfold with_year_month, parsed_date.
    rewrite has_date_coerced_with_amount, has_column_dropna_all.
    assert (E0 : has_column "YearMonth" (coerced (with_amount (dropna_all df)))
                 = has_column "YearMonth" df).
    { unfold coerced, with_amount. rewrite has_column_assign.
      destruct (has_column "Amount" (dropna_all df));
        [|rewrite has_column_assign_scalar]; cbn;
        now rewrite ?orb_false_r. }
    destruct (has_column "Date" df).
    - rewrite !has_column_assign. cbn. now rewrite orb_true_r.
    - now rewrite E0. }
  destruct (has_column "Category" _);
    [|rewrite has_column_assign_scalar]; rewrite has_column_assign, E;
    cbn; now rewrite ?orb_false_r.
Qed.


(** ** The sample *)

Lemma load_sample (fs : gmap string workbook) :
  load_excel_first_sheet "Input.xlsx" (create_sample_excel "Input.xlsx" fs)
  = Some (rename_columns strip sample_data).
Proof.
  unfold load_excel_first_sheet, read_excel_first, create_sample_excel, to_excel.
  now rewrite lookup_insert_eq.
Qed.

Lemma main_tables_eq (fs : gmap string workbook) :
  main_tables fs
  = Some (cleaned (rename_columns strip sample_data),
          positive_only (rename_columns strip sample_data),
          totals (rename_columns strip sample_data),
          pivot (rename_columns strip sample_data)).
Proof.
  unfold main_tables. rewrite load_sample. cbn [mbind option_bind].
  apply run_manipulate_eq.
Qed.

(** C1, as the script has it. On the sample, Totals has one row for each
    category and month with an amount, six in all; they add up to 125 for
    Food, 500 for Rent and 45 for Transport. The pivot has the months as
    columns and one row per category: Food 50, 30, 45; Rent 0, 500, 0;
    Transport 20, 0, 25. *)
Theorem sample_totals_and_pivot (fs : gmap string workbook) :
  exists clean pos tot p,
    main_tables fs = Some (clean, pos, tot, Some p) /\
    cells_under ["Category"; "YearMonth"; "Amount"] tot
    = [ [Text "Food"; Text "2025-01"; amount 50];
        [Text "Food"; Text "2025-02"; amount 30];
        [Text "Food"; Text "2025-03"; amount 45];
        [Text "Rent"; Text "2025-02"; amount 500];
        [Text "Transport"; Text "2025-01"; amount 20];
        [Text "Transport"; Text "2025-03"; amount 25] ] /\
    [category_total "Food" tot; category_total "Rent" tot;
     category_total "Transport" tot]
    = [Q2Qc 125; Q2Qc 500; Q2Qc 45] /\
    pcolumns p = [Text "2025-01"; Text "2025-02"; Text "2025-03"] /\
    prows p
    = [ (Text "Food", [amount 50; amount 30; amount 45]);
        (Text "Rent", [amount 0; amount 500; amount 0]);
        (Text "Transport", [amount 20; amount 0; amount 25]) ].
Proof.
  exists (cleaned (rename_columns strip sample_data)),
         (positive_only (rename_columns strip sample_data)),
         (totals (rename_columns strip sample_data)),
         (sort_index_pivot (pivot_unsorted (rename_columns strip sample_data))).
  split; [apply main_tables_eq|].
  repeat split; apply bool_decide_eq_true_1; now vm_compute.
Qed.

End Run.

(** ** The script on concrete frames *)

(** C1, as the specification words it, fails: no row of Totals gives Food
    125. The sample has a Date column, so Totals is by category and month,
    and the Food rows are 50, 30 and 45. *)
Lemma sample_totals_have_no_food_125 :
  exists clean pos tot piv,
    main_tables (H := plain_converters) ∅ = Some (clean, pos, tot, piv) /\
    existsb (fun e => bool_decide (cell_at e "Category" = Text "Food" /\
                                   cell_at e "Amount" = amount 125))
            (rows tot) = false /\
    map (fun e => cell_at e "Amount")
        (List.filter (fun e => bool_decide (cell_at e "Category" = Text "Food"))
                     (rows tot))
    = [amount 50; amount 30; amount 45].
Proof.
  do 4 eexists. split; [apply main_tables_eq|].
  split; [now vm_compute|].
  refine (bool_decide_eq_true_1 _ _). now vm_compute.
Qed.


(** C8 on the sample: the store holds the sample at 0 before and after. *)
Lemma manipulate_leaves_sample_unchanged :
  [Frame sample_data] !! 0 = Some (Frame sample_data) /\
  exists clean pos tot piv h',
    manipulate (H := plain_converters) 0 [Frame sample_data]
    = Some ((clean, pos, tot, piv), h') /\
    h' !! 0 = Some (Frame sample_data) /\
    (forall r' o, [Frame sample_data] !! r' = Some o -> h' !! r' = Some o) /\
    length [Frame sample_data] <= clean /\
    length [Frame sample_data] <= pos /\
    length [Frame sample_data] <= tot /\
    (forall p, piv = Some p -> length [Frame sample_data] <= p).
Proof.
  split; [reflexivity|].
  apply (@manipulate_leaves_input_unchanged plain_converters
           [Frame sample_data] 0 sample_data).
  reflexivity.
Defined.

(** C10 on a frame of three rows, one of them empty. *)
Lemma missing_amount_is_one_example :
  has_column "Amount" frame_without_amount = false /\
  exists clean pos tot piv,
    run_manipulate (H := plain_converters) frame_without_amount
    = Some (clean, pos, tot, piv) /\
    (forall r, In r (rows clean) ->
       cell_at r "Amount" = Num 1 /\ cell_at r "VAT_20" = Num (Q2Qc (2 # 10))) /\
    rows pos = rows clean /\
    length (rows clean)
    = length (List.filter
                (fun r => negb (all_missing (columns frame_without_amount) r))
                (rows frame_without_amount)).
Proof.
  split; [reflexivity|].
  apply (@missing_amount_is_one plain_converters frame_without_amount).
  reflexivity.
Defined.

(** The VAT of a negative amount, of an amount that rounds, and of a text
    that is no number. *)
Example vat_20_examples :
  let df := mk_frame ["Amount"]
              [ list_to_map [("Amount", Num (Q2Qc (-755 # 100)))];
                list_to_map [("Amount", Num (Q2Qc (1234 # 1000)))];
                list_to_map [("Amount", Text "12")];
                list_to_map [("Amount", Text "n/a")] ] in
  (fun t => cells_under ["Amount"; "VAT_20"] (fst (fst (fst t))))
    <$> run_manipulate (H := plain_converters) df
  = Some [ [Num (Q2Qc (-755 # 100)); Num (Q2Qc (-151 # 100))];
           [Num (Q2Qc (1234 # 1000)); Num (Q2Qc (25 # 100))];
           [amount 12; Num (Q2Qc (24 # 10))];
           [amount 0; amount 0] ].
Proof.
  cbv zeta. rewrite run_manipulate_eq. cbn [fmap option_fmap option_map fst].
  f_equal. refine (bool_decide_eq_true_1 _ _). now vm_compute.
Qed.

(** ** More on the tables of [manipulate] *)

Section Tables.
Context `{Converters}.

Lemma frame_eq (d1 d2 : DataFrame) :
  columns d1 = columns d2 -> rows d1 = rows d2 -> d1 = d2.
Proof. destruct d1, d2. cbn. now intros -> ->. Qed.

Lemma existsb_filter_absent (c : string) (df : DataFrame) (L : list string) :
  existsb (String.eqb c) (List.filter (fun x => negb (has_column x df)) L)
  = negb (has_column c df) && existsb (String.eqb c) L.
Proof.
  induction L as [|x L IH]; [now rewrite andb_false_r|].
  cbn [List.filter existsb].
  destruct (String.eqb_spec c x) as [<-|Hne].
  - destruct (has_column c df); cbn [negb existsb andb orb]; [done|].
    now rewrite String.eqb_refl.
  - destruct (negb (has_column x df)); cbn [existsb]; rewrite IH;
      [|done]. apply String.eqb_neq in Hne as ->. done.
Qed.

(** Assigning to a label the frame does not have yet, and to one it has. *)
Lemma columns_with_new (c : string) (d df : DataFrame) (L : list string) :
  columns d = columns df ++ List.filter (fun x => negb (has_column x df)) L ->
  existsb (String.eqb c) L = false ->
  columns_with c d
  = columns df ++ List.filter (fun x => negb (has_column x df)) (L ++ [c]).
Proof.
  intros E N. unfold columns_with, has_column at 1.
  rewrite E, existsb_app, existsb_filter_absent, N, andb_false_r, orb_false_r.
  fold (has_column c df). rewrite List.filter_app. cbn [List.filter].
  destruct (has_column c df); cbn [negb]; [now rewrite app_nil_r|].
  now rewrite app_assoc.
Qed.

Lemma columns_with_old (c : string) (d df : DataFrame) (L : list string) :
  columns d = columns df ++ List.filter (fun x => negb (has_column x df)) L ->
  has_column c df || existsb (String.eqb c) L = true ->
  columns_with c d = columns d.
Proof.
  intros E N. unfold columns_with, has_column at 1.
  rewrite E, existsb_app, existsb_filter_absent. fold (has_column c df).
  destruct (has_column c df); cbn in *; [done|]. now rewrite N.
Qed.

Lemma columns_with_amount (d : DataFrame) :
  columns (with_amount d) = columns_with "Amount" d.
Proof.
  unfold with_amount. destruct (has_column "Amount" d) eqn:E; [|done].
  unfold columns_with. now rewrite E.
Qed.

Lemma columns_with_category (d : DataFrame) :
  columns (with_category (has_column "Category" d) d)
  = columns_with "Category" d.
Proof.
  unfold with_category. destruct (has_column "Category" d) eqn:E; [|done].
  unfold columns_with. now rewrite E.
Qed.

(** The labels of the first table: those of the input, then the labels the
    script adds, each unless the input has it. *)
Lemma columns_cleaned (df : DataFrame) :
  columns (cleaned df)
  = columns df
    ++ List.filter (fun c => negb (has_column c df))
         (["Amount"] ++ (if has_column "Date" df then ["YearMonth"] else [])
            ++ ["VAT_20"; "Category"]).
Proof.
  unfold cleaned. rewrite columns_with_category. unfold derived, with_vat.
  cbn [columns assign].
  assert (E1 : columns (with_amount (dropna_all df))
               = columns df
                 ++ List.filter (fun c => negb (has_column c df)) ["Amount"]).
  { rewrite columns_with_amount.
    apply (columns_with_new "Amount" (dropna_all df) df []); [|done].
    cbn. now rewrite app_nil_r. }
  assert (E2 : columns (coerced (with_amount (dropna_all df)))
               = columns df
                 ++ List.filter (fun c => negb (has_column c df)) ["Amount"]).
  { rewrite <- E1. unfold coerced. cbn [columns assign].
    apply (columns_with_old "Amount" _ df ["Amount"] E1). cbn.
    now rewrite orb_true_r. }
  set (d2 := coerced (with_amount (dropna_all df))) in *.
  assert (E3 : columns (with_year_month d2)
               = columns df
                 ++ List.filter (fun c => negb (has_column c df))
                      (["Amount"]
                         ++ (if has_column "Date" df then ["YearMonth"] else []))).
  { unfold with_year_month. subst d2.
    rewrite has_date_coerced_with_amount, has_column_dropna_all.
    destruct (has_column "Date" df) eqn:Hd; [|now rewrite app_nil_r].
    cbn [columns assign].
    apply (columns_with_new "YearMonth" _ df ["Amount"]); [|done].
    unfold parsed_date. cbn [columns assign]. rewrite <- E2.
    apply (columns_with_old "Date" _ df ["Amount"] E2). now rewrite Hd. }
  set (d3 := with_year_month d2) in *.
  assert (E4 : columns_with "VAT_20" d3
               = columns df
                 ++ List.filter (fun c => negb (has_column c df))
                      ((["Amount"]
                          ++ (if has_column "Date" df then ["YearMonth"] else []))
                         ++ ["VAT_20"])).
  { apply columns_with_new; [done|]. now destruct (has_column "Date" df). }
  assert (ET : ["Amount"]
                 ++ (if has_column "Date" df then ["YearMonth"] else [])
                 ++ ["VAT_20"; "Category"]
               = ((["Amount"]
                     ++ (if has_column "Date" df then ["YearMonth"] else []))
                    ++ ["VAT_20"]) ++ ["Category"])
    by now destruct (has_column "Date" df).
  rewrite ET. apply columns_with_new; [exact E4|].
  now destruct (has_column "Date" df).
Qed.

Lemma has_column_cleaned (c : string) (df : DataFrame) :
  has_column c (cleaned df)
  = has_column c df
    || existsb (String.eqb c)
         (["Amount"] ++ (if has_column "Date" df then ["YearMonth"] else [])
            ++ ["VAT_20"; "Category"]).
Proof.
  unfold has_column at 1.
  rewrite columns_cleaned, existsb_app, existsb_filter_absent.
  fold (has_column c df). now destruct (has_column c df).
Qed.

Lemma columns_positive_only (df : DataFrame) :
  columns (positive_only df) = columns (cleaned df).
Proof.
  unfold positive_only, cleaned, with_category.
  now destruct (has_column "Category" (derived df)).
Qed.

(** *** Running the script on its own first table *)

Lemma to_datetime_cell_idempotent (c : cell) :
  to_datetime_cell (to_datetime_cell c) = to_datetime_cell c.
Proof.
  destruct c as [|s|x|d]; cbn; [done| | |done].
  - now destruct (str_to_datetime s).
  - now destruct (number_to_datetime x).
Qed.

(** What a row holds after line 65. *)
Lemma derive_row_lookups (df : DataFrame) (r0 : gmap string cell) :
  (exists a, derive_row df r0 !! "Amount" = Some (Num a) /\
             derive_row df r0 !! "VAT_20" = Some (vat_cell (Num a))) /\
  (has_column "Date" df = true ->
   exists D, derive_row df r0 !! "Date" = Some D /\
             to_datetime_cell D = D /\
             derive_row df r0 !! "YearMonth" = Some (period_cell D)).
Proof.
  pose proof (cell_at_amount_derive_row df r0) as Ha.
  destruct (coerce_cell_num
              (cell_at (amount_row (has_column "Amount" df) r0) "Amount"))
    as [a Ea].
  rewrite Ea in Ha. split.
  - exists a. split.
    + unfold derive_row, vat_row, year_month_row, coerce_row.
      rewrite lookup_insert_ne by done.
      destruct (has_column "Date" df);
        rewrite ?(lookup_insert_ne _ "YearMonth"), ?(lookup_insert_ne _ "Date")
          by done;
        now rewrite lookup_insert_eq, Ea.
    + rewrite <- Ha. unfold derive_row at 1, vat_row.
      rewrite lookup_insert_eq. do 2 f_equal.
      unfold derive_row, vat_row. now rewrite cell_at_insert_ne.
  - intros Hd. unfold derive_row, vat_row, year_month_row. rewrite Hd.
    eexists. split; [|split].
    + rewrite lookup_insert_ne, lookup_insert_ne, lookup_insert_eq by done.
      reflexivity.
    + apply to_datetime_cell_idempotent.
    + now rewrite lookup_insert_ne, lookup_insert_eq by done.
Qed.

Lemma cleaned_row_lookups (df : DataFrame) (r : gmap string cell) :
  In r (rows (cleaned df)) ->
  (exists a, r !! "Amount" = Some (Num a) /\
             r !! "VAT_20" = Some (vat_cell (Num a))) /\
  (has_column "Date" df = true ->
   exists D, r !! "Date" = Some D /\ to_datetime_cell D = D /\
             r !! "YearMonth" = Some (period_cell D)).
Proof.
  intros Hr. apply in_rows_cleaned in Hr as (r0 & _ & _ & ->).
  destruct (derive_row_lookups df r0) as [(a & Ea & Ev) Hd].
  assert (Hc : forall c, c ≠ "Category" ->
            category_row (has_column "Category" (derived df)) (derive_row df r0)
              !! c = derive_row df r0 !! c).
  { intros c Hc. unfold category_row.
    destruct (has_column "Category" (derived df)); [done|].
    now apply lookup_insert_ne. }
  split.
  - exists a. now rewrite !Hc.
  - intros Hdate. destruct (Hd Hdate) as (D & E1 & E2 & E3).
    exists D. now rewrite !Hc.
Qed.

(** A row that holds what line 65 leaves is left as it is by the lines up
    to 65. *)
Lemma derive_row_fixed (d : DataFrame) (r : gmap string cell) :
  has_column "Amount" d = true ->
  (exists a, r !! "Amount" = Some (Num a) /\
             r !! "VAT_20" = Some (vat_cell (Num a))) ->
  (has_column "Date" d = true ->
   exists D, r !! "Date" = Some D /\ to_datetime_cell D = D /\
             r !! "YearMonth" = Some (period_cell D)) ->
  derive_row d r = r.
Proof.
  intros Ha (a & Ea & Ev) Hd.
  unfold derive_row. rewrite Ha. unfold amount_row.
  assert (E1 : coerce_row r = r).
  { unfold coerce_row, cell_at. rewrite Ea. cbn. now apply insert_id. }
  rewrite E1.
  assert (E2 : year_month_row (has_column "Date" d) r = r).
  { unfold year_month_row. destruct (has_column "Date" d); [|done].
    destruct (Hd eq_refl) as (D & ED & EDD & EY).
    unfold cell_at. rewrite ED. cbn. rewrite EDD.
    rewrite (insert_id r "Date" D ED). now apply insert_id. }
  rewrite E2. unfold vat_row, cell_at. rewrite Ea. cbn [default].
  now apply insert_id.
Qed.

Lemma has_column_derived_mono (c : string) (d : DataFrame) :
  has_column c d = true -> has_column c (derived d) = true.
Proof.
  intros Hc. unfold derived, with_vat. rewrite has_column_assign.
  apply orb_true_iff. left.
  assert (E : has_column c (coerced (with_amount (dropna_all d))) = true).
  { unfold coerced. rewrite has_column_assign. apply orb_true_iff. left.
    unfold with_amount. destruct (has_column "Amount" (dropna_all d)); [done|].
    rewrite has_column_assign_scalar. apply orb_true_iff. now left. }
  unfold with_year_month.
  destruct (has_column "Date" (coerced (with_amount (dropna_all d)))); [|done].
  unfold parsed_date. rewrite !has_column_assign, E. reflexivity.
Qed.

Lemma has_column_In (c : string) (d : DataFrame) :
  has_column c d = true -> In c (columns d).
Proof.
  unfold has_column. intros E. apply existsb_exists in E as (x & Hx & E).
  now apply String.eqb_eq in E as ->.
Qed.

Lemma map_fixed {A} (f : A -> A) (l : list A) :
  (forall a, In a l -> f a = a) -> map f l = l.
Proof.
  induction l as [|a l IH]; [done|]. intros E. cbn.
  rewrite (E a) by now left. f_equal. apply IH. intros b Hb. apply E. now right.
Qed.

Lemma has_date_cleaned (df : DataFrame) :
  has_column "Date" (cleaned df) = has_column "Date" df.
Proof.
  rewrite has_column_cleaned.
  destruct (has_column "Date" df); [done|]. reflexivity.
Qed.

(** The first table is a fixed point of the lines that build it. *)
Lemma cleaned_cleaned (df : DataFrame) : cleaned (cleaned df) = cleaned df.
Proof.
  apply frame_eq.
  - rewrite (columns_cleaned (cleaned df)), has_date_cleaned.
    assert (HA : has_column "Amount" (cleaned df) = true)
      by (rewrite has_column_cleaned; apply orb_true_r).
    assert (HV : has_column "VAT_20" (cleaned df) = true).
    { rewrite has_column_cleaned. apply orb_true_iff. right.
      now destruct (has_column "Date" df). }
    assert (HC : has_column "Category" (cleaned df) = true).
    { rewrite has_column_cleaned. apply orb_true_iff. right.
      now destruct (has_column "Date" df). }
    assert (HY : has_column "Date" df = true ->
                 has_column "YearMonth" (cleaned df) = true).
    { intros Hd. now rewrite has_year_month_cleaned, Hd. }
    destruct (has_column "Date" df); cbn [app List.filter];
      rewrite ?HA, ?HV, ?HC, ?HY by done; cbn [negb]; apply app_nil_r.
  - assert (Hdrop : rows (dropna_all (cleaned df)) = rows (cleaned df)).
    { unfold dropna_all. cbn [rows]. apply filter_all. intros r Hr.
      apply negb_true_iff.
      destruct (cleaned_row_lookups df r Hr) as [(a & Ea & _) _].
      apply not_true_is_false. intros Em.
      unfold all_missing in Em. rewrite forallb_forall in Em.
      assert (Hin : In "Amount" (columns (cleaned df))).
      { apply has_column_In. rewrite has_column_cleaned. apply orb_true_r. }
      specialize (Em "Amount" Hin). unfold cell_at in Em. rewrite Ea in Em.
      discriminate Em. }
    unfold cleaned at 1. rewrite rows_with_category, rows_derived, map_map, Hdrop.
    apply map_fixed. intros r Hr.
    rewrite (has_column_derived_mono "Category" (cleaned df)).
    + unfold category_row.
      destruct (cleaned_row_lookups df r Hr) as [Hav Hd].
      apply derive_row_fixed; [|done|].
      * rewrite has_column_cleaned. apply orb_true_r.
      * now rewrite has_date_cleaned.
    + rewrite has_column_cleaned. apply orb_true_iff. right.
      now destruct (has_column "Date" df).
Qed.

Lemma positive_only_cleaned (df : DataFrame) :
  positive_only (cleaned df) = positive_only df.
Proof.
  apply frame_eq.
  - now rewrite !columns_positive_only, cleaned_cleaned.
  - now rewrite !rows_positive_only, cleaned_cleaned.
Qed.

(** X3. The script is idempotent: run on the first table it returned, it
    returns the same four tables. Nothing is dropped, coerced, parsed or
    added a second time. *)
Theorem manipulate_is_idempotent (df : DataFrame) :
  exists clean pos tot piv,
    run_manipulate df = Some (clean, pos, tot, piv) /\
    run_manipulate clean = Some (clean, pos, tot, piv).
Proof.
  exists (cleaned df), (positive_only df), (totals df), (pivot df).
  split; [apply run_manipulate_eq|]. rewrite run_manipulate_eq.
  assert (Ek : group_keys (cleaned df) = group_keys df)
    by (unfold group_keys; now rewrite cleaned_cleaned).
  assert (Et : totals (cleaned df) = totals df)
    by (unfold totals, sums; now rewrite Ek, positive_only_cleaned).
  assert (Ep : pivot (cleaned df) = pivot df)
    by (unfold pivot, pivot_unsorted;
        now rewrite cleaned_cleaned, positive_only_cleaned).
  now rewrite cleaned_cleaned, positive_only_cleaned, Et, Ep.
Qed.

(** *** The sum of Totals *)









(** *** An input without categories *)




End Tables.

(** ** Loading a sheet *)





End ExcelDataHandlingProperties.

(** * Properties of the exporter *)

Module ExcelToHTMLProperties.
Import ExcelToHTML.

Lemma append_cons (a : ascii) (s1 s2 : string) :
  String a s1 +:+ s2 = String a (s1 +:+ s2).
Proof. reflexivity. Qed.

Lemma append_nil_l (s : string) : "" +:+ s = s.
Proof. reflexivity. Qed.

Lemma append_nil_r (s : string) : s +:+ "" = s.
Proof.
  induction s as [|a s IH]; [done|]. now rewrite append_cons, IH.
Qed.


Lemma occurs_append (a : ascii) (s1 s2 : string) :
  occurs a (s1 +:+ s2) = occurs a s1 || occurs a s2.
Proof.
  induction s1 as [|b s1 IH]; [done|].
  rewrite append_cons. cbn [occurs]. now rewrite IH, orb_assoc.
Qed.

Lemma last_char_append (s1 s2 : string) :
  s2 <> "" -> last_char (s1 +:+ s2) = last_char s2.
Proof.
  intros N. induction s1 as [|a s1 IH]; [done|].
  rewrite append_cons. cbn [last_char]. rewrite IH.
  destruct (s1 +:+ s2) eqn:E; [|done].
  destruct s1; [rewrite append_nil_l in E; congruence | discriminate].
Qed.

(** When a text ends with a character that the pattern has not before its
    last, no occurrence of the pattern that starts in the text runs on into
    what follows it. *)
Lemma prefix_append_last (p s1 s2 : string) (c : ascii) :
  last_char s1 = Some c -> occurs c (butlast p) = false ->
  String.prefix p (s1 +:+ s2) = String.prefix p s1.
Proof.
  revert s1. induction p as [|a p IH]; intros [|b s1] L O; try done.
  rewrite append_cons. cbn [String.prefix].
  destruct (ascii_dec a b) as [<-|]; [|done].
  destruct s1 as [|b' s1].
  - cbn in L. injection L as <-.
    destruct p as [|a' p]; [rewrite append_nil_l; now destruct s2|].
    cbn in O. now rewrite Ascii.eqb_refl in O.
  - apply IH; [done|].
    destruct p as [|a' p]; [done|]. cbn in O.
    now apply orb_false_iff in O as [_ O].
Qed.


Lemma append_not_nil (s1 s2 : string) : s2 <> "" -> s1 +:+ s2 <> "".
Proof. destruct s1; [done|discriminate]. Qed.

Ltac not_nil :=
  repeat match goal with |- (_ +:+ _) <> _ => apply append_not_nil end;
  let E := fresh in intros E; vm_compute in E; discriminate E.

Lemma last_char_cons (a : ascii) (s : string) :
  exists c, last_char (String a s) = Some c.
Proof.
  revert a. induction s as [|b s IH]; intros a; [now exists a|].
  destruct (IH b) as [c E]. exists c. now rewrite <- E.
Qed.

Lemma count_tables_append_clear_end (s1 s2 : string) :
  ends_clear s1 = true ->
  count_tables (s1 +:+ s2) = count_tables s1 + count_tables s2.
Proof.
  unfold ends_clear. induction s1 as [|a s1 IH]; intros E; [done|].
  destruct (last_char_cons a s1) as [c L]. rewrite L in E.
  apply negb_true_iff in E.
  rewrite append_cons. cbn [count_tables]. rewrite <- append_cons.
  rewrite (prefix_append_last "<table" (String a s1) s2 c L E).
  destruct s1 as [|b s1]; [rewrite append_nil_l; cbn [count_tables]; lia|].
  rewrite IH; [lia|].
  change (last_char (String a (String b s1))) with (last_char (String b s1)) in L.
  rewrite L. now apply negb_true_iff.
Qed.


(** A text without [<] has no tag, and none starts in it. *)
Lemma count_tables_append_no_lt (s1 s2 : string) :
  occurs "<" s1 = false -> count_tables (s1 +:+ s2) = count_tables s2.
Proof.
  induction s1 as [|a s1 IH]; intros O; [done|].
  cbn [occurs] in O. apply orb_false_iff in O as [Oa O].
  rewrite append_cons. cbn [count_tables]. rewrite (IH O).
  cbn [String.prefix]. destruct (ascii_dec "<" a) as [<-|]; [|done].
  now rewrite Ascii.eqb_refl in Oa.
Qed.

Lemma count_tables_no_lt (s : string) :
  occurs "<" s = false -> count_tables s = 0.
Proof.
  intros O. rewrite <- (append_nil_r s). now rewrite count_tables_append_no_lt.
Qed.

Lemma escape_no_lt (s : string) : occurs "<" (escape s) = false.
Proof.
  induction s as [|a s IH]; [done|].
  cbn [escape]. rewrite occurs_append, IH, orb_false_r.
  unfold escape_char.
  destruct (Ascii.eqb_spec a "&"); [done|].
  destruct (Ascii.eqb_spec a "<"); [done|].
  destruct (Ascii.eqb_spec a ">"); [done|].
  cbn [occurs]. rewrite orb_false_r. apply Ascii.eqb_neq. congruence.
Qed.


Lemma ends_clear_append (s1 s2 : string) :
  ends_clear s1 = true -> ends_clear s2 = true -> ends_clear (s1 +:+ s2) = true.
Proof.
  intros E1 E2. destruct s2 as [|a s2]; [now rewrite append_nil_r|].
  unfold ends_clear in *. now rewrite last_char_append.
Qed.


Lemma quiet_append (s1 s2 : string) : quiet s1 -> quiet s2 -> quiet (s1 +:+ s2).
Proof.
  intros [C1 E1] [C2 E2]. split; [|now apply ends_clear_append].
  rewrite count_tables_append_clear_end by done. lia.
Qed.

Lemma quiet_join (l : list string) : List.Forall quiet l -> quiet (join l).
Proof.
  induction 1 as [|s l Hs _ IH]; [now split|].
  cbn [join fold_right]. now apply quiet_append.
Qed.

Lemma quiet_no_lt_append (x s : string) :
  occurs "<" x = false -> s <> "" -> quiet s -> quiet (x +:+ s).
Proof.
  intros O N [C E]. split.
  - now rewrite count_tables_append_no_lt.
  - unfold ends_clear in *. now rewrite last_char_append.
Qed.

Lemma quiet_closed (s : string) :
  (count_tables s =? 0) && ends_clear s = true -> quiet s.
Proof.
  intros E. apply andb_true_iff in E as [C E]. split; [|done].
  now apply Nat.eqb_eq.
Qed.

Ltac quiet_pieces :=
  repeat match goal with |- quiet (_ +:+ _) => apply quiet_append end.

Section Tables.
Context `{Display}.

Lemma quiet_th (label : string) : quiet (th label).
Proof.
  unfold th. apply quiet_append; [now apply quiet_closed|].
  apply quiet_no_lt_append; [apply escape_no_lt|done|now apply quiet_closed].
Qed.

Lemma quiet_td (c : option string) : quiet (td c).
Proof.
  unfold td. apply quiet_append; [now apply quiet_closed|].
  apply quiet_no_lt_append; [apply escape_no_lt|done|now apply quiet_closed].
Qed.

Lemma quiet_tr (row : list (option string)) : quiet (tr row).
Proof.
  unfold tr. quiet_pieces; try (now apply quiet_closed).
  apply quiet_join, List.Forall_forall. intros s Hs.
  apply in_map_iff in Hs as (c & <- & _). apply quiet_td.
Qed.

Lemma quiet_thead (labels : list string) : quiet (thead labels).
Proof.
  unfold thead. quiet_pieces; try (now apply quiet_closed).
  apply quiet_join, List.Forall_forall. intros s Hs.
  apply in_map_iff in Hs as (c & <- & _). apply quiet_th.
Qed.

Lemma quiet_tbody (rs : list (list (option string))) : quiet (tbody rs).
Proof.
  unfold tbody. quiet_pieces; try (now apply quiet_closed).
  apply quiet_join, List.Forall_forall. intros s Hs.
  apply in_map_iff in Hs as (c & <- & _). apply quiet_tr.
Qed.

Lemma open_tag_eq (table_id : string) :
  open_tag table_id
  = String "<" ("table" +:+ border_attr
                 +:+ " class=" +:+ quote +:+ "dataframe tbl" +:+ quote
                 +:+ " id=" +:+ quote)
      +:+ table_id +:+ quote +:+ ">" +:+ nl.
Proof. unfold open_tag, border_attr. now destruct border_zero. Qed.

Lemma count_open_tag (table_id : string) :
  occurs "<" table_id = false ->
  count_tables (open_tag table_id) = 1 /\ ends_clear (open_tag table_id) = true.
Proof.
  intros O. rewrite open_tag_eq. unfold border_attr.
  destruct border_zero; split.
  1, 3: rewrite append_cons; cbn [count_tables];
    rewrite count_tables_append_no_lt by reflexivity;
    rewrite count_tables_append_no_lt by done;
    reflexivity.
  all: unfold ends_clear; now rewrite !last_char_append by not_nil.
Qed.

(** A table of [to_html] holds one [<table], its own. *)
Lemma count_to_html (df : DataFrame) (table_id : string) :
  occurs "<" table_id = false ->
  count_tables (to_html df table_id) = 1 /\
  ends_clear (to_html df table_id) = true.
Proof.
  intros O. destruct (count_open_tag table_id O) as [C E].
  assert (Q : quiet (thead (columns df) +:+ tbody (rows df) +:+ "</table>")).
  { quiet_pieces;
      [apply quiet_thead | apply quiet_tbody | now apply quiet_closed]. }
  unfold to_html. split.
  - rewrite count_tables_append_clear_end by done. rewrite C, (proj1 Q). lia.
  - apply ends_clear_append; [done|apply Q].
Qed.





Lemma count_page (body : string) :
  ends_clear body = true ->
  count_tables (page_head +:+ body +:+ page_foot) = count_tables body.
Proof.
  intros E.
  rewrite count_tables_append_clear_end by reflexivity.
  rewrite count_tables_append_clear_end by done.
  change (count_tables page_head) with 0. change (count_tables page_foot) with 0.
  lia.
Qed.

End Tables.

(** ** All sheets *)

Section AllSheets.
Context `{Display}.




Lemma render_all (a : Args) (w : World) (wb : list (string * DataFrame)) :
  all_sheets a = true -> workbooks w !! excel a = Some wb ->
  render a w = Ok (dfs_to_html (filled (na a) wb)).
Proof.
  intros Hall Hwb. unfold render, read_excel_all. now rewrite Hall, Hwb.
Qed.


(** The page of all sheets is never the page of one sheet: after the
    head the one goes on with a heading, or ends, where the other has its
    table. *)
Lemma dfs_to_html_is_no_df_to_html (maps : list (string * DataFrame))
    (df : DataFrame) (table_id : string) :
  dfs_to_html maps <> df_to_html df table_id.
Proof.
  unfold dfs_to_html, df_to_html. cbv zeta. intros E.
  apply String.app_inj in E.
  apply (f_equal (String.get 1)) in E.
  destruct maps as [|[sheet d] maps]; vm_compute in E; discriminate E.
Qed.

Lemma all_sheets_lower (a : Args) (s : string) :
  sheet a = Some s -> lower s = "all" -> all_sheets a = true.
Proof.
  intros Hs Hl. unfold all_sheets. rewrite Hs, Hl.
  now destruct s.
Qed.

(** C9. Whatever the case of its letters, a [--sheet] that reads [all] asks
    for all sheets: the run is the run of [--sheet all], the page is the
    page of all sheets, and it is the page of no single sheet, also when the
    workbook has a sheet of that very name. *)
Theorem sheet_all_in_any_case (a : Args) (w : World) (s : string) :
  sheet a = Some s -> lower s = "all" ->
  main a w = main (mk_args (excel a) (Some "all") (out a) (na a)) w /\
  (forall wb, workbooks w !! excel a = Some wb ->
     render a w = Ok (dfs_to_html (filled (na a) wb))) /\
  (forall df table_id, render a w <> Ok (df_to_html df table_id)).
Proof.
  intros Hs Hl. pose proof (all_sheets_lower a s Hs Hl) as Hall.
  assert (Hr : render a w
               = render (mk_args (excel a) (Some "all") (out a) (na a)) w).
  { unfold render. rewrite Hall. reflexivity. }
  split; [|split].
  - unfold main. rewrite <- Hr. reflexivity.
  - intros wb Hwb. now apply render_all.
  - intros df table_id E. unfold render, read_excel_all in E. rewrite Hall in E.
    destruct (workbooks w !! excel a) as [wb|]; [|discriminate].
    apply (f_equal (fun r => match r with Ok x => x | Raise _ => "" end)) in E.
    now apply dfs_to_html_is_no_df_to_html in E.
Qed.

(** C5. A [--sheet] that is not [all] and names no sheet of the workbook
    ends the run with status 1, and the world is as it was: no file is
    written, nothing is printed. *)
Theorem missing_sheet_aborts_without_output (a : Args) (w : World) (s : string) :
  sheet a = Some s -> all_sheets a = false ->
  (forall wb, workbooks w !! excel a = Some wb -> ~ In s (map fst wb)) ->
  main a w = (1, w).
Proof.
  intros Hs Hall Hno. unfold main, render, read_excel_sheet.
  rewrite Hall, Hs.
  destruct (workbooks w !! excel a) as [wb|] eqn:Hwb; [|done].
  destruct (List.find _ wb) as [kv|] eqn:Hf; [|done].
  apply find_some in Hf as [Hin Heq]. apply String.eqb_eq in Heq.
  exfalso. apply (Hno wb eq_refl). rewrite <- Heq. now apply in_map.
Qed.

End AllSheets.

(** The texts that read [all]: the eight ways to write it. *)
Lemma lower_char_a (c : ascii) :
  lower_char c = "a"%char -> c = "a"%char \/ c = "A"%char.
Proof.
  destruct c as [[] [] [] [] [] [] [] []]; vm_compute; intros E;
    try discriminate E; auto.
Qed.

Lemma lower_char_l (c : ascii) :
  lower_char c = "l"%char -> c = "l"%char \/ c = "L"%char.
Proof.
  destruct c as [[] [] [] [] [] [] [] []]; vm_compute; intros E;
    try discriminate E; auto.
Qed.

Lemma lower_all (s : string) :
  lower s = "all" <->
  In s ["all"; "All"; "aLl"; "alL"; "ALl"; "AlL"; "aLL"; "ALL"].
Proof.
  split.
  - destruct s as [|c1 [|c2 [|c3 [|c4 s]]]]; try discriminate.
    cbn [lower]. intros [= E1 E2 E3].
    apply lower_char_a in E1 as [->| ->];
      apply lower_char_l in E2 as [->| ->];
      apply lower_char_l in E3 as [->| ->]; cbn; tauto.
  - cbn. intros [<-|[<-|[<-|[<-|[<-|[<-|[<-|[<-|[]]]]]]]]]; reflexivity.
Qed.

(** ** The command on concrete workbooks *)



(** C9 on a workbook that has a sheet named [All]. *)
Lemma sheet_named_All_is_all_sheets :
  let a := mk_args "book.xlsx" (Some "All") None "" in
  let w := world_of [("All", january); ("February", february)] in
  sheet a = Some "All" /\ lower "All" = "all" /\
  main (H := plain_display) a w
  = main (H := plain_display) (mk_args (excel a) (Some "all") (out a) (na a)) w /\
  (forall wb, workbooks w !! excel a = Some wb ->
     render (H := plain_display) a w
     = Ok (dfs_to_html (H := plain_display) (filled (na a) wb))) /\
  (forall df table_id,
     render (H := plain_display) a w
     <> Ok (df_to_html (H := plain_display) df table_id)).
Proof.
  cbv zeta. split; [reflexivity|]. split; [reflexivity|].
  apply (@sheet_all_in_any_case plain_display
           (mk_args "book.xlsx" (Some "All") None "")
           (world_of [("All", january); ("February", february)]) "All");
    reflexivity.
Defined.

(** C5 on a workbook without a sheet named [March]; [--out] is given, and
    no file is there after the run. *)
Lemma missing_March_aborts :
  let a := mk_args "book.xlsx" (Some "March") (Some "out.html") "" in
  let w := world_of two_sheets in
  sheet a = Some "March" /\ all_sheets a = false /\
  (forall wb, workbooks w !! excel a = Some wb -> ~ In "March" (map fst wb)) /\
  main (H := plain_display) a w = (1, w) /\
  files w !! "out.html" = None.
Proof.
  cbv zeta.
  assert (Hno : forall wb,
            workbooks (world_of two_sheets) !! "book.xlsx" = Some wb ->
            ~ In "March" (map fst wb)).
  { intros wb [= <-]. cbn. intros [E|[E|[]]]; discriminate E. }
  split; [reflexivity|]. split; [reflexivity|]. split; [exact Hno|].
  split; [|reflexivity].
  apply (@missing_sheet_aborts_without_output plain_display
           (mk_args "book.xlsx" (Some "March") (Some "out.html") "")
           (world_of two_sheets) "March"); [reflexivity|reflexivity|exact Hno].
Defined.

(** ** One sheet, and no sheet *)

Section OneSheet.
Context `{Display}.

Lemma lookup_In {A} (l : list A) (k : nat) (x : A) : l !! k = Some x -> In x l.
Proof.
  revert k. induction l as [|y l IH]; intros [|k] Hk; try done.
  - injection Hk as ->. now left.
  - right. now apply (IH k).
Qed.

Lemma find_nodup (wb : list (string * DataFrame)) (k : nat) (s : string)
    (df : DataFrame) :
  List.NoDup (map fst wb) -> wb !! k = Some (s, df) ->
  List.find (fun kv => String.eqb (fst kv) s) wb = Some (s, df).
Proof.
  revert k. induction wb as [|[s' d'] wb IH]; intros k N Hk; [done|].
  apply List.NoDup_cons_iff in N as [Nin N]. cbn [List.find fst].
  destruct k as [|k].
  - injection Hk as -> ->. now rewrite String.eqb_refl.
  - cbn in Hk. destruct (String.eqb_spec s' s) as [->|]; [|now apply (IH k)].
    exfalso. apply Nin. cbn [fst].
    apply (in_map fst wb (s, df)). now apply (lookup_In wb k).
Qed.

(** X1. With [--sheet NAME], for the name of a sheet of the workbook that
    is not [all], the page is the page of that one sheet, its missing cells
    filled with the [--na] text, under the id [table1]; and whatever the
    labels and the cells of the sheet hold, the page has exactly one
    [<table]: the text of a cell cannot open a table of its own. *)
Theorem single_sheet_page_has_one_table (a : Args) (w : World)
    (wb : list (string * DataFrame)) (s : string) (k : nat) (df : DataFrame) :
  sheet a = Some s -> all_sheets a = false ->
  workbooks w !! excel a = Some wb ->
  List.NoDup (map fst wb) -> wb !! k = Some (s, df) ->
  render a w = Ok (df_to_html (fillna (na a) df) "table1") /\
  count_tables (df_to_html (fillna (na a) df) "table1") = 1 /\
  main a w = match emit a (df_to_html (fillna (na a) df) "table1") w with
             | Ok w' => (0, w')
             | Raise _ => (1, w)
             end.
Proof.
  intros Hs Hall Hwb N Hk.
  assert (Hr : render a w = Ok (df_to_html (fillna (na a) df) "table1")).
  { unfold render, read_excel_sheet.
    now rewrite Hall, Hs, Hwb, (find_nodup wb k s df N Hk). }
  split; [done|]. split; [|unfold main; now rewrite Hr].
  destruct (count_to_html (fillna (na a) df) "table1" eq_refl) as [C E].
  unfold df_to_html. cbv zeta. now rewrite count_page.
Qed.

(** X2. Without [--sheet] the run never gets to a page: [read_excel] is
    called with [sheet_name=None] and hands back all sheets as a dictionary,
    on which [fillna] fails. The run ends with status 1 and leaves the world
    as it was, whatever the workbook holds. *)
Theorem default_sheet_always_fails (a : Args) (w : World) :
  sheet a = None -> main a w = (1, w).
Proof.
  intros Hs. unfold main, render, all_sheets, read_excel_all. rewrite Hs.
  now destruct (workbooks w !! excel a).
Qed.

End OneSheet.

(** X1 on the second of two sheets. *)
Lemma single_sheet_February :
  let a := mk_args "book.xlsx" (Some "February") None "-" in
  let w := world_of two_sheets in
  sheet a = Some "February" /\ all_sheets a = false /\
  workbooks w !! excel a = Some two_sheets /\
  two_sheets !! 1 = Some ("February", february) /\
  render (H := plain_display) a w
  = Ok (df_to_html (H := plain_display) (fillna (na a) february) "table1") /\
  count_tables (df_to_html (H := plain_display) (fillna (na a) february) "table1")
  = 1 /\
  main (H := plain_display) a w
  = match emit a (df_to_html (H := plain_display) (fillna (na a) february)
                    "table1") w with
    | Ok w' => (0, w')
    | Raise _ => (1, w)
    end.
Proof.
  cbv zeta. split; [reflexivity|]. split; [reflexivity|].
  split; [reflexivity|]. split; [reflexivity|].
  apply (@single_sheet_page_has_one_table plain_display
           (mk_args "book.xlsx" (Some "February") None "-")
           (world_of two_sheets) two_sheets "February" 1 february);
    try reflexivity.
  repeat constructor; cbn; intros E; decompose [or] E; try discriminate; done.
Defined.

(** X2 on a workbook that is there. *)
Lemma default_sheet_fails_on_two_sheets :
  let a := mk_args "book.xlsx" None (Some "out.html") "" in
  let w := world_of two_sheets in
  sheet a = None /\ main (H := plain_display) a w = (1, w).
Proof.
  cbv zeta. split; [reflexivity|].
  now apply (@default_sheet_always_fails plain_display).
Defined.

End ExcelToHTMLProperties.
